(** * Bitcoin Echo GUI: client-side synchronization core

    A shallow embedding of the TypeScript/Svelte sources of the Bitcoin Echo
    dashboard:
    - [src/lib/rpc/types.ts]        data types, milestone table and lookup;
    - [src/lib/rpc/client.ts]       single and batched JSON-RPC calls;
    - [src/lib/stores/connection.ts] connection store;
    - [src/lib/stores/nodeMode.ts]   mode detection;
    - [src/lib/stores/sessionHistory.ts] session ledger and its persistence;
    - [src/routes/sync/+page.svelte] sync detection and milestone checks.

    JavaScript numbers that hold block heights, counters and timestamps are
    modelled as [Z]; [Date.now()] becomes an explicit [now] argument. *)

From Stdlib Require Import ZArith QArith Qminmax List String Bool Lia Sorted.
Import ListNotations.
Open Scope Z_scope.

(* ------------------------------------------------------------------ *)
(** ** Data types of [src/lib/rpc/types.ts] *)

(** [BlockchainInfo], restricted to the fields the sync core reads. *)
Record BlockchainInfo := mkBlockchainInfo {
  blocks : Z;
  headers : Z;
  initialblockdownload : bool;
  pruned : bool
}.

(** [ObserverStats.messages_received]. *)
Record MessagesReceived := mkMessagesReceived {
  m_version : Z; m_verack : Z; m_ping : Z; m_pong : Z; m_addr : Z;
  m_inv : Z; m_getdata : Z; m_block : Z; m_tx : Z; m_headers : Z;
  m_getblocks : Z; m_getheaders : Z; m_other : Z
}.

(** [ObserverStats]; [mode] is the string the node sends
    (['observer' | 'full'] by the type, any string on the wire). *)
Record ObserverStats := mkObserverStats {
  mode : string;
  uptime_seconds : Z;
  peer_count : Z;
  start_height : Z;
  messages_received : MessagesReceived
}.

(** [ConnectionStatus]. *)
Inductive ConnectionStatus := disconnected | connecting | connected | error.

(** [RPCConfig]. *)
Record RPCConfig := mkRPCConfig { endpoint : string; timeout : Z }.

(* ------------------------------------------------------------------ *)
(** ** Sync detection, [src/routes/sync/+page.svelte] *)

Module SyncPage.

(** [validatedHeight = chainInfo?.blocks || 0]. *)
Definition validatedHeight (chainInfo : option BlockchainInfo) : Z :=
  match chainInfo with Some i => blocks i | None => 0 end.

(** [blocksRemaining = Math.max(0, networkHeight - validatedHeight)]. *)
Definition blocksRemaining (networkHeight : Z) (chainInfo : option BlockchainInfo) : Z :=
  Z.max 0 (networkHeight - validatedHeight chainInfo).

(** [isSynced]; [networkHeight] is [$blockHeight || 0]. *)
Definition isSynced (chainInfo : option BlockchainInfo) (networkHeight : Z) : bool :=
  match chainInfo with
  | None => false
  | Some i =>
      if initialblockdownload i then false
      else if (validatedHeight chainInfo =? 0) && (networkHeight >? 0) then false
      else if blocksRemaining networkHeight chainInfo >? 10 then false
      else true
  end.

End SyncPage.

(* ------------------------------------------------------------------ *)
(** ** Mode detection, [src/lib/stores/nodeMode.ts] *)

Module NodeModeStore.

Inductive NodeMode := observer | validate_lite | validate_archival | unknown.

(** [detectMode(stats, info)]. *)
Definition detectMode (stats : option ObserverStats) (info : option BlockchainInfo) : NodeMode :=
  match stats with
  | None => unknown
  | Some st =>
      if String.eqb (mode st) "observer" then observer
      else if String.eqb (mode st) "full" then
        match info with
        | Some i => if pruned i then validate_lite else validate_archival
        | None => validate_archival
        end
      else unknown
  end.

End NodeModeStore.

(* ------------------------------------------------------------------ *)
(** ** Connection store, [src/lib/stores/connection.ts] *)

Module Connection.

(** [ConnectionState]. [networkHashrate] is a float (EH/s) in the source;
    the store only tests it against zero, so an integer stands for it. *)
Record ConnectionState := mkConnectionState {
  status : ConnectionStatus;
  config : RPCConfig;
  lastError : option string;
  lastCheck : option Z;
  stats : option ObserverStats;
  blockHeight : Z;
  lastBlockHeightFetch : Z;
  networkHashrate : Z
}.

(** The module-level state: the writable store and [healthCheckTimer]
    (a timer handle, present or not). *)
Record Store := mkStore {
  connectionState : ConnectionState;
  healthCheckTimer : bool
}.

Definition DEFAULT_CONFIG : RPCConfig := mkRPCConfig "http://localhost:8332" 15000.

Definition initialState (cfg : RPCConfig) : ConnectionState :=
  mkConnectionState disconnected cfg None None None 0 0 0.

Definition BLOCK_HEIGHT_REFRESH_INTERVAL : Z := 30000.

(** [statsChanged(oldStats, newStats)]. *)
Definition statsChanged (oldStats newStats : option ObserverStats) : bool :=
  match oldStats, newStats with
  | None, None => false
  | None, _ | _, None => true
  | Some o, Some n =>
      let om := messages_received o in
      let nm := messages_received n in
      negb (peer_count o =? peer_count n) ||
      negb (uptime_seconds o =? uptime_seconds n) ||
      negb (m_version om =? m_version nm) ||
      negb (m_verack om =? m_verack nm) ||
      negb (m_ping om =? m_ping nm) ||
      negb (m_pong om =? m_pong nm) ||
      negb (m_inv om =? m_inv nm) ||
      negb (m_getdata om =? m_getdata nm) ||
      negb (m_block om =? m_block nm) ||
      negb (m_tx om =? m_tx nm)
  end.

(** [stopHealthCheck()]. *)
Definition stopHealthCheck (st : Store) : Store :=
  mkStore (connectionState st) false.

(** [connection.disconnect()]. *)
Definition disconnect (st : Store) : Store :=
  let st' := stopHealthCheck st in
  let s := connectionState st' in
  mkStore
    {| status := disconnected; config := config s; lastError := lastError s;
       lastCheck := lastCheck s; stats := None; blockHeight := blockHeight s;
       lastBlockHeightFetch := lastBlockHeightFetch s;
       networkHashrate := networkHashrate s |}
    (healthCheckTimer st').

End Connection.

(* ------------------------------------------------------------------ *)
(** ** External reference fetch, [connection.fetchExternalData] *)

Module ExternalData.
Import Connection.

(** JavaScript's [a || b] on numbers (no NaN here): [a] unless it is 0. *)
Definition orZ (a b : Z) : Z := if a =? 0 then b else a.

(** [connection.fetchExternalData()] at time [now]. [fetched] is the pair
    [(fetchBlockHeight(), fetchNetworkHashrate())] the network would
    return (both helpers map every failure to 0). The boolean result says
    whether the two network requests were issued. *)
Definition fetchExternalData (now : Z) (fetched : Z * Z) (s : ConnectionState)
  : bool * ConnectionState :=
  if negb (blockHeight s =? 0) && (now - lastBlockHeightFetch s <? BLOCK_HEIGHT_REFRESH_INTERVAL)
  then (false, s)
  else
    let '(height, hashrate) := fetched in
    if negb (height =? 0) || negb (hashrate =? 0) then
      (true, {| status := status s; config := config s; lastError := lastError s;
                lastCheck := lastCheck s; stats := stats s;
                blockHeight := orZ height (blockHeight s);
                networkHashrate := orZ hashrate (networkHashrate s);
                lastBlockHeightFetch := now |})
    else (true, s).

End ExternalData.

(* ------------------------------------------------------------------ *)
(** ** JSON-RPC transport, [src/lib/rpc/client.ts] *)

Module RpcClient.

(** A field of a parsed JSON object: absent ([undefined]), [null], or a value. *)
Inductive JSValue (A : Type) := JUndefined | JNull | JVal (a : A).
Arguments JUndefined {A}. Arguments JNull {A}. Arguments JVal {A} a.

Record RPCError := mkRPCError { code : Z; message : string }.

(** [RPCResponse<T>] as parsed by [response.json()]; [error] is tested for
    truthiness, so a missing or null error is [None]. *)
Record RPCResponse (A : Type) := mkRPCResponse {
  result : JSValue A;
  rpc_error : option RPCError
}.
Arguments mkRPCResponse {A}. Arguments result {A}. Arguments rpc_error {A}.

(** What [fetch] settles to: aborted by the timeout controller, rejected
    with another error, or a response with [ok], [status] and a body. *)
Inductive FetchResult (B : Type) :=
| FetchAborted
| FetchRejected (msg : string)
| FetchResponse (ok : bool) (status : Z) (body : B).
Arguments FetchAborted {B}. Arguments FetchRejected {B}. Arguments FetchResponse {B}.

(** The errors thrown (and rethrown) by the two calls. *)
Inductive RpcFailure :=
| RpcTimeout
| RpcNetwork (msg : string)
| RpcHttp (status : Z)
| RpcErrorResponse (index : option nat) (e : RPCError)
| RpcNullResult (index : option nat)
| RpcNotArray.

(** The settled promise: resolved with a value or rejected. *)
Inductive Outcome (A : Type) := Resolved (a : A) | Rejected (f : RpcFailure).
Arguments Resolved {A}. Arguments Rejected {A}.

(** [rpcCall<T>]: only [result === null] is rejected. *)
Definition rpcCall {A} (r : FetchResult (RPCResponse A)) : Outcome (JSValue A) :=
  match r with
  | FetchAborted => Rejected RpcTimeout
  | FetchRejected m => Rejected (RpcNetwork m)
  | FetchResponse ok st resp =>
      if negb ok then Rejected (RpcHttp st)
      else match rpc_error resp with
           | Some e => Rejected (RpcErrorResponse None e)
           | None =>
               match result resp with
               | JNull => Rejected (RpcNullResult None)
               | v => Resolved v
               end
           end
  end.

(** Batch body: a JSON array of responses, or anything else. *)
Inductive BatchBody (A : Type) := BArray (rs : list (RPCResponse A)) | BNotArray.
Arguments BArray {A}. Arguments BNotArray {A}.

(** The [batchResponse.map(...)] callback: throws on an error or on a
    [null]/[undefined] result, at the first offending index. *)
Fixpoint checkBatch {A} (i : nat) (rs : list (RPCResponse A)) : Outcome (list (JSValue A)) :=
  match rs with
  | [] => Resolved []
  | r :: rest =>
      match rpc_error r with
      | Some e => Rejected (RpcErrorResponse (Some i) e)
      | None =>
          match result r with
          | JNull | JUndefined => Rejected (RpcNullResult (Some i))
          | v =>
              match checkBatch (S i) rest with
              | Resolved vs => Resolved (v :: vs)
              | Rejected f => Rejected f
              end
          end
      end
  end.

(** [rpcBatchCall<T>]. *)
Definition rpcBatchCall {A} (r : FetchResult (BatchBody A)) : Outcome (list (JSValue A)) :=
  match r with
  | FetchAborted => Rejected RpcTimeout
  | FetchRejected m => Rejected (RpcNetwork m)
  | FetchResponse ok st body =>
      if negb ok then Rejected (RpcHttp st)
      else match body with
           | BNotArray => Rejected RpcNotArray
           | BArray rs => checkBatch 0 rs
           end
  end.

End RpcClient.

(* ------------------------------------------------------------------ *)
(** ** Milestones, [MILESTONES] and [getMilestonesBetween] in
    [src/lib/rpc/types.ts], [checkMilestones] in the sync page *)

Module Milestones.

(** [Milestone], restricted to height and title. *)
Record Milestone := mkMilestone { height : Z; title : string }.

(** [MILESTONES], ordered by block height. *)
Definition MILESTONES : list Milestone := [
  mkMilestone 0 "Genesis Block";
  mkMilestone 170 "First Transaction";
  mkMilestone 57043 "Bitcoin Pizza Day";
  mkMilestone 173805 "P2SH Activates";
  mkMilestone 210000 "First Halving";
  mkMilestone 227931 "BIP-34 Activates";
  mkMilestone 363725 "BIP-66 Activates";
  mkMilestone 388381 "CHECKLOCKTIMEVERIFY Activates";
  mkMilestone 419328 "CHECKSEQUENCEVERIFY Activates";
  mkMilestone 420000 "Second Halving";
  mkMilestone 481824 "SegWit Activates";
  mkMilestone 630000 "Third Halving";
  mkMilestone 709632 "Taproot Activates";
  mkMilestone 840000 "Fourth Halving"
].

(** [getMilestonesBetween(fromHeight, toHeight)], both ends inclusive. *)
Definition getMilestonesBetween (fromHeight toHeight : Z) : list Milestone :=
  filter (fun m => (fromHeight <=? height m) && (height m <=? toHeight)) MILESTONES.

(** [dismissedMilestones.has(h)] on the [Set<number>]. *)
Definition has (dismissed : list Z) (h : Z) : bool := existsb (Z.eqb h) dismissed.

(** The component state that the milestone check reads and writes. *)
Record MilestoneState := mkMilestoneState {
  currentMilestoneNotification : option Milestone;
  dismissedMilestones : list Z;
  lastMilestoneCheckHeight : Z
}.

Definition initialMilestoneState : MilestoneState := mkMilestoneState None [] 0.

(** The backwards [for] loop with [break]: the last milestone of the list
    whose height is not dismissed. *)
Definition mostRecentNotDismissed (dismissed : list Z) (passed : list Milestone)
  : option Milestone :=
  find (fun m => negb (has dismissed (height m))) (rev passed).

(** [checkMilestones(currentHeight)]. The second component is the milestone
    assigned to [currentMilestoneNotification] by this call, if any. *)
Definition checkMilestones (currentHeight : Z) (s : MilestoneState)
  : MilestoneState * option Milestone :=
  if lastMilestoneCheckHeight s =? 0 then
    (mkMilestoneState (currentMilestoneNotification s) (dismissedMilestones s) currentHeight, None)
  else if currentHeight <=? lastMilestoneCheckHeight s then (s, None)
  else
    let passed := getMilestonesBetween (lastMilestoneCheckHeight s + 1) currentHeight in
    match mostRecentNotDismissed (dismissedMilestones s) passed with
    | Some m => (mkMilestoneState (Some m) (dismissedMilestones s) currentHeight, Some m)
    | None =>
        (mkMilestoneState (currentMilestoneNotification s) (dismissedMilestones s) currentHeight, None)
    end.

(** [dismissMilestone()]. *)
Definition dismissMilestone (s : MilestoneState) : MilestoneState :=
  match currentMilestoneNotification s with
  | Some m => mkMilestoneState None (dismissedMilestones s ++ [height m]) (lastMilestoneCheckHeight s)
  | None => s
  end.

(** What the page does to this state: a successful poll at a validated
    height, or the user dismissing the notification. *)
Inductive Event := Poll (h : Z) | Dismiss.

(** Run a sequence of events; collect the notifications surfaced. *)
Fixpoint run (evs : list Event) (s : MilestoneState) : MilestoneState * list Milestone :=
  match evs with
  | [] => (s, [])
  | Poll h :: rest =>
      let '(s1, fired) := checkMilestones h s in
      let '(s2, out) := run rest s1 in
      (s2, match fired with Some m => m :: out | None => out end)
  | Dismiss :: rest => run rest (dismissMilestone s)
  end.

End Milestones.

(* ------------------------------------------------------------------ *)
(** ** Session History Ledger, [src/lib/stores/sessionHistory.ts] *)

Module SessionHistory.

(** [SyncSession]; [id] is [new Date().toISOString()], represented by the
    timestamp it prints. *)
Record SyncSession := mkSyncSession {
  id : Z;
  startTime : Z;
  endTime : option Z;
  startBlocks : Z;
  endBlocks : option Z;
  networkHeight : Z
}.

(** [SyncCompletion]. *)
Record SyncCompletion := mkSyncCompletion {
  completedAt : Z;
  totalSessions : Z;
  totalBlocks : Z;
  totalTimeMs : Z
}.

(** [SessionHistoryState]; the progress percentage is a float in the
    source, a rational here. *)
Record SessionHistoryState := mkSessionHistoryState {
  sessions : list SyncSession;
  currentSession : option SyncSession;
  completion : option SyncCompletion;
  lastKnownHeight : Z;
  lastKnownProgress : Q
}.

(** The four [localStorage] keys ([None] when the key is absent). *)
Record Storage := mkStorage {
  storedSessions : option (list SyncSession);       (* bitcoin-echo-sessions *)
  storedCompletion : option SyncCompletion;         (* bitcoin-echo-sync-completion *)
  storedLastHeight : option Z;                      (* bitcoin-echo-last-height *)
  storedLastProgress : option Q                     (* bitcoin-echo-last-progress *)
}.

(** The in-memory store together with [localStorage]. *)
Record World := mkWorld { mem : SessionHistoryState; storage : Storage }.

Definition emptyState : SessionHistoryState := mkSessionHistoryState [] None None 0 0.
Definition emptyStorage : Storage := mkStorage None None None None.
Definition freshWorld : World := mkWorld emptyState emptyStorage.

(** [saveState(state)]: the completion key is written only when set. *)
Definition saveState (s : SessionHistoryState) (st : Storage) : Storage :=
  mkStorage (Some (sessions s))
            (match completion s with Some c => Some c | None => storedCompletion st end)
            (Some (lastKnownHeight s))
            (Some (lastKnownProgress s)).

(** [sessionHistory.startSession(currentBlocks, networkHeight)] at [now].
    The update does not call [saveState]. *)
Definition startSession (now currentBlocks nh : Z) (w : World) : World :=
  let s := mem w in
  match currentSession s with
  | Some _ => w
  | None =>
      let session := mkSyncSession now now None currentBlocks None nh in
      mkWorld (mkSessionHistoryState (sessions s) (Some session) (completion s)
                                     currentBlocks (lastKnownProgress s))
              (storage w)
  end.

(** [sessionHistory.updateProgress(currentBlocks, progress)]. *)
Definition updateProgress (currentBlocks : Z) (progress : Q) (w : World) : World :=
  let s := mem w in
  let ns := mkSessionHistoryState (sessions s) (currentSession s) (completion s)
                                  currentBlocks progress in
  mkWorld ns (saveState ns (storage w)).

(** [sessionHistory.endSession(endBlocks)] at [now]. *)
Definition endSession (now endBlocks : Z) (w : World) : World :=
  let s := mem w in
  match currentSession s with
  | None => w
  | Some cs =>
      let ended := mkSyncSession (id cs) (startTime cs) (Some now) (startBlocks cs)
                                 (Some endBlocks) (networkHeight cs) in
      let ns := mkSessionHistoryState (sessions s ++ [ended]) None (completion s)
                                      endBlocks (lastKnownProgress s) in
      mkWorld ns (saveState ns (storage w))
  end.

(** The [reduce] callback: a session counts when [endTime] and [startTime]
    are both truthy (non-null, non-zero). *)
Definition addSessionTime (total : Z) (session : SyncSession) : Z :=
  match endTime session with
  | Some e => if negb (e =? 0) && negb (startTime session =? 0)
              then total + (e - startTime session) else total
  | None => total
  end.

Definition sumSessionTime (ss : list SyncSession) : Z := fold_left addSessionTime ss 0.

(** [sessionHistory.markComplete(totalBlocks)] at [now]. *)
Definition markComplete (now tb : Z) (w : World) : World :=
  let w1 := match currentSession (mem w) with
            | Some _ => endSession now tb w
            | None => w
            end in
  let updated := mem w1 in
  let c := mkSyncCompletion now (Z.of_nat (List.length (sessions updated))) tb
                            (sumSessionTime (sessions updated)) in
  let s := mem w1 in
  let ns := mkSessionHistoryState (sessions s) (currentSession s) (Some c) tb (inject_Z 100) in
  mkWorld ns (saveState ns (storage w1)).

(** The persisted list and scalars agree with memory. *)
Definition persisted (w : World) : Prop :=
  storedSessions (storage w) = Some (sessions (mem w)) /\
  storedLastHeight (storage w) = Some (lastKnownHeight (mem w)) /\
  storedLastProgress (storage w) = Some (lastKnownProgress (mem w)).

End SessionHistory.

(* ------------------------------------------------------------------ *)
(** ** Milestone lookups, [src/lib/rpc/types.ts] *)

Module MilestoneLookup.
Import Milestones.

(** [getMilestoneAtHeight(height)]: [MILESTONES.find]. *)
Definition getMilestoneAtHeight (h : Z) : option Milestone :=
  find (fun m => height m =? h) MILESTONES.

(** [isMilestoneHeight(height)]: [MILESTONES.some]. *)
Definition isMilestoneHeight (h : Z) : bool :=
  existsb (fun m => height m =? h) MILESTONES.

(** [getLastPassedMilestone(height)]: [passed[passed.length - 1]], which is
    [undefined] on an empty array. *)
Definition getLastPassedMilestone (h : Z) : option Milestone :=
  let passed := filter (fun m => height m <=? h) MILESTONES in
  match passed with
  | [] => None
  | _ => nth_error passed (List.length passed - 1)
  end.

(** [getNextMilestone(height)]: the first milestone strictly above. *)
Definition getNextMilestone (h : Z) : option Milestone :=
  find (fun m => h <? height m) MILESTONES.

(** A JavaScript quotient [a / b] of two integers: [None] stands for the
    non-finite results of a division by zero. *)
Definition jsDiv (a b : Z) : option Q :=
  if b =? 0 then None else Some (inject_Z a / inject_Z b)%Q.

(** [getProgressToNextMilestone(currentHeight)]; the progress is
    [Math.min((current / total) * 100, 100)]. *)
Definition getProgressToNextMilestone (currentHeight : Z) : option (Milestone * option Q) :=
  match getNextMilestone currentHeight with
  | None => None
  | Some next =>
      let start := match getLastPassedMilestone currentHeight with
                   | Some l => height l | None => 0 end in
      let total := height next - start in
      let current := currentHeight - start in
      Some (next, option_map (fun q => Qmin (q * inject_Z 100)%Q (inject_Z 100))
                             (jsDiv current total))
  end.

Definition APPROACHING_THRESHOLD : Z := 1000.

(** [isApproachingMilestone(currentHeight)]. *)
Definition isApproachingMilestone (currentHeight : Z) : option (Milestone * Z) :=
  match getNextMilestone currentHeight with
  | None => None
  | Some next =>
      let blocksAway := height next - currentHeight in
      if (blocksAway <=? APPROACHING_THRESHOLD) && (blocksAway >? 0)
      then Some (next, blocksAway) else None
  end.

End MilestoneLookup.

(* ------------------------------------------------------------------ *)
(** ** Progress percentage, [calcProgress] in the sync page *)

Module SyncProgress.

(** [calcProgress(validated, network)]. *)
Definition calcProgress (validated network : Z) : Q :=
  if network <=? 0 then 0%Q
  else Qmin ((inject_Z validated / inject_Z network) * inject_Z 100)%Q (inject_Z 100).

End SyncProgress.

(* ------------------------------------------------------------------ *)
(** ** Request ids, the module counter [requestId] of [client.ts] *)

Module RequestIds.

(** A request sent by the client: [rpcCall] or [rpcBatchCall] with [n]
    calls. *)
Inductive Request := SingleCall | BatchCall (n : nat).

(** The ids a request carries and the counter afterwards: [requestId++]
    for a single call; [requestId + index] for the calls of a batch,
    followed by [requestId += calls.length]. *)
Definition assignIds (requestId : Z) (r : Request) : list Z * Z :=
  match r with
  | SingleCall => ([requestId], requestId + 1)
  | BatchCall n =>
      (map (fun index => requestId + Z.of_nat index) (seq 0 n), requestId + Z.of_nat n)
  end.

(** A sequence of requests from counter [requestId]: all ids carried, in
    order, and the final counter. *)
Fixpoint issue (requestId : Z) (rs : list Request) : list Z * Z :=
  match rs with
  | [] => ([], requestId)
  | r :: rest =>
      let '(ids, next) := assignIds requestId r in
      let '(ids', last) := issue next rest in
      (ids ++ ids', last)
  end.

End RequestIds.

(* ------------------------------------------------------------------ *)
(** ** Session History Ledger: queries, reset and reload *)

Module SessionHistoryMore.
Import SessionHistory.

(** [sessionHistory.getLastSession()]. *)
Definition getLastSession (w : World) : option SyncSession :=
  let ss := sessions (mem w) in
  match ss with
  | [] => None
  | _ => nth_error ss (List.length ss - 1)
  end.

(** [sessionHistory.isResume()] (and the derived [isResumeSession]). *)
Definition isResume (w : World) : bool :=
  (0 <? Z.of_nat (List.length (sessions (mem w)))) || (lastKnownHeight (mem w) >? 0).

(** The [reduce] callback of [getTotalBlocksValidated]. *)
Definition addBlocks (total : Z) (session : SyncSession) : Z :=
  match endBlocks session with
  | Some e => total + Z.max 0 (e - startBlocks session)
  | None => total
  end.

(** [sessionHistory.getTotalBlocksValidated()]. *)
Definition getTotalBlocksValidated (w : World) : Z :=
  fold_left addBlocks (sessions (mem w)) 0.

(** [sessionHistory.reset()]: the four keys are removed and the state is
    set back to empty. *)
Definition reset (w : World) : World := mkWorld emptyState emptyStorage.


(** One operation of the ledger's public interface. *)
Inductive LedgerOp :=
| OpStart (now currentBlocks networkHeight : Z)
| OpUpdate (currentBlocks : Z) (progress : Q)
| OpEnd (now endBlocks : Z)
| OpComplete (now totalBlocks : Z).

Definition applyOp (op : LedgerOp) (w : World) : World :=
  match op with
  | OpStart now cb nh => startSession now cb nh w
  | OpUpdate cb p => updateProgress cb p w
  | OpEnd now eb => endSession now eb w
  | OpComplete now tb => markComplete now tb w
  end.

Definition applyOps (ops : list LedgerOp) (w : World) : World :=
  fold_left (fun w op => applyOp op w) ops w.

End SessionHistoryMore.

(* ------------------------------------------------------------------ *)
(** ** Connection store: health check and batch updates *)

Module ConnectionMore.
Import Connection ExternalData.

(** How [getObserverStats] settles: resolved with a stats object, or
    rejected with an [Error] carrying [message]. *)
Inductive StatsResult := StatsOk (st : ObserverStats) | StatsErr (message : string).

Definition isConnecting (s : ConnectionStatus) : bool :=
  match s with connecting => true | _ => false end.
Definition isConnected (s : ConnectionStatus) : bool :=
  match s with connected => true | _ => false end.

Definition withStatus (s : ConnectionState) (st : ConnectionStatus) : ConnectionState :=
  {| status := st; config := config s; lastError := lastError s; lastCheck := lastCheck s;
     stats := stats s; blockHeight := blockHeight s;
     lastBlockHeightFetch := lastBlockHeightFetch s; networkHashrate := networkHashrate s |}.

(** [healthCheck()] at time [now], with the stats call settling as [res]
    and the two external helpers returning [fetched] if they are called.
    The boolean says whether a reconnect was scheduled
    ([setTimeout(healthCheck, RECONNECT_DELAY)]). *)
Definition healthCheck (now : Z) (res : StatsResult) (fetched : Z * Z) (s : ConnectionState)
  : ConnectionState * bool :=
  if isConnecting (status s) then (s, false)
  else
    let isFirstConnection := negb (isConnected (status s)) in
    let s1 := if isFirstConnection then withStatus s connecting else s in
    match res with
    | StatsErr msg =>
        ({| status := error; config := config s1; lastError := Some msg;
            lastCheck := lastCheck s1; stats := None; blockHeight := blockHeight s1;
            lastBlockHeightFetch := lastBlockHeightFetch s1;
            networkHashrate := networkHashrate s1 |}, true)
    | StatsOk st =>
        let needsExternalData :=
          (blockHeight s1 =? 0) ||
          (now - lastBlockHeightFetch s1 >? BLOCK_HEIGHT_REFRESH_INTERVAL) in
        let '(newBlockHeight, newHashrate, newLastFetch) :=
          if needsExternalData then (fst fetched, snd fetched, now)
          else (blockHeight s1, networkHashrate s1, lastBlockHeightFetch s1) in
        if isFirstConnection || statsChanged (stats s) (Some st) ||
           negb (newBlockHeight =? blockHeight s1) || negb (newHashrate =? networkHashrate s1)
        then ({| status := connected; config := config s1; lastError := None;
                 lastCheck := Some now; stats := Some st;
                 blockHeight := orZ newBlockHeight (blockHeight s1);
                 lastBlockHeightFetch := newLastFetch;
                 networkHashrate := orZ newHashrate (networkHashrate s1) |}, false)
        else (s1, false)
    end.

(** [connection.updateStatsFromBatch(stats)] at time [now]. *)
Definition updateStatsFromBatch (now : Z) (st : ObserverStats) (s : ConnectionState)
  : ConnectionState :=
  let upd := {| status := connected; config := config s; lastError := None;
                lastCheck := Some now; stats := Some st; blockHeight := blockHeight s;
                lastBlockHeightFetch := lastBlockHeightFetch s;
                networkHashrate := networkHashrate s |} in
  if statsChanged (stats s) (Some st) then upd
  else if negb (isConnected (status s)) then upd
  else s.

(** The operations that write the connection state. *)
Inductive ConnOp :=
| CHealth (now : Z) (res : StatsResult) (fetched : Z * Z)
| CBatch (now : Z) (st : ObserverStats)
| CExternal (now : Z) (fetched : Z * Z)
| CDisconnect.

Definition applyConnOp (op : ConnOp) (st : Store) : Store :=
  match op with
  | CHealth now res f => mkStore (fst (healthCheck now res f (connectionState st))) (healthCheckTimer st)
  | CBatch now o => mkStore (updateStatsFromBatch now o (connectionState st)) (healthCheckTimer st)
  | CExternal now f => mkStore (snd (fetchExternalData now f (connectionState st))) (healthCheckTimer st)
  | CDisconnect => disconnect st
  end.

Definition applyConnOps (ops : list ConnOp) (st : Store) : Store :=
  fold_left (fun st op => applyConnOp op st) ops st.

End ConnectionMore.

(* ------------------------------------------------------------------ *)
(** ** Node mode store: state, updates and detection *)

Module NodeModeMore.
Import NodeModeStore.

(** [NodeModeState]. *)
Record NodeModeState := mkNodeModeState {
  nmode : NodeMode;
  loading : bool;
  nlastError : option string;
  observerStats : option ObserverStats;
  blockchainInfo : option BlockchainInfo
}.

Definition initialNodeModeState : NodeModeState := mkNodeModeState unknown false None None None.

Definition nodeModeEqb (a b : NodeMode) : bool :=
  match a, b with
  | observer, observer | validate_lite, validate_lite
  | validate_archival, validate_archival | unknown, unknown => true
  | _, _ => false
  end.

(** [blockchainInfo ?? fallback]. *)
Definition coalesce {A} (x y : option A) : option A :=
  match x with Some _ => x | None => y end.

(** [nodeMode.updateFromStats(stats, blockchainInfo)]; both branches of the
    [newMode !== currentState.mode] test are written out. *)
Definition updateFromStats (st : ObserverStats) (info : option BlockchainInfo)
  (s : NodeModeState) : NodeModeState :=
  let newMode := detectMode (Some st) (coalesce info (blockchainInfo s)) in
  if negb (nodeModeEqb newMode (nmode s)) then
    mkNodeModeState newMode (loading s) (nlastError s) (Some st) (coalesce info (blockchainInfo s))
  else
    mkNodeModeState (nmode s) (loading s) (nlastError s) (Some st) (coalesce info (blockchainInfo s)).

(** The derived store [isIBD]. *)
Definition isIBD (s : NodeModeState) : bool :=
  match nmode s with
  | observer => false
  | _ => match blockchainInfo s with Some i => initialblockdownload i | None => false end
  end.

(** How one RPC settles: resolved with a value, or rejected with [message]. *)
Inductive Settled (A : Type) := Ok (a : A) | Failed (message : string).
Arguments Ok {A}. Arguments Failed {A}.

(** [nodeMode.detect(config)]: [statsRes] is how [getObserverStats] settles
    and [infoRes] how [getBlockchainInfo] would settle. Returns the mode,
    the new state and whether [getBlockchainInfo] was called. *)
Definition detect (statsRes : Settled ObserverStats) (infoRes : Settled BlockchainInfo)
  (s : NodeModeState) : NodeMode * NodeModeState * bool :=
  let s0 := mkNodeModeState (nmode s) true None (observerStats s) (blockchainInfo s) in
  match statsRes with
  | Failed msg =>
      (unknown, mkNodeModeState unknown false (Some msg) (observerStats s0) (blockchainInfo s0), false)
  | Ok st =>
      let full := String.eqb (mode st) "full" in
      let info := if full then match infoRes with Ok i => Some i | Failed _ => None end
                  else None in
      let m := detectMode (Some st) info in
      (m, mkNodeModeState m false None (Some st) info, full)
  end.

End NodeModeMore.

(* ------------------------------------------------------------------ *)
(** ** Sync page: the session-tracking and completion [$effect] *)

Module SyncEffect.
Import SessionHistory SyncPage SyncProgress.

Inductive ViewState := vLoading | vResume | vSyncing | vComplete.

(** The component variables the effect reads and writes. *)
Record PageState := mkPageState {
  viewState : ViewState;
  sessionTrackerStarted : bool;
  wasNotSynced : bool;
  justCompletedSync : bool
}.

Definition isSyncing (v : ViewState) : bool :=
  match v with vSyncing => true | _ => false end.

(** [startSessionTracking()]. *)
Definition startSessionTracking (now : Z) (chainInfo : option BlockchainInfo) (networkHeight : Z)
  (ps : PageState) (w : World) : PageState * World :=
  match chainInfo with
  | None => (ps, w)
  | Some ci =>
      if sessionTrackerStarted ps then (ps, w)
      else (mkPageState (viewState ps) true (wasNotSynced ps) (justCompletedSync ps),
            startSession now (blocks ci) networkHeight w)
  end.

(** One run of the [$effect]; the boolean says whether it called
    [sessionHistory.markComplete]. *)
Definition syncEffect (now : Z) (chainInfo : option BlockchainInfo) (loadingFlag : bool)
  (networkHeight : Z) (ps : PageState) (w : World) : PageState * World * bool :=
  match chainInfo with
  | None => (ps, w, false)
  | Some _ =>
      if loadingFlag then (ps, w, false)
      else
        let synced := isSynced chainInfo networkHeight in
        let vh := validatedHeight chainInfo in
        let '(ps1, w1) :=
          if isSyncing (viewState ps) && negb synced
          then startSessionTracking now chainInfo networkHeight ps w else (ps, w) in
        let w2 := if sessionTrackerStarted ps1 && (vh >? 0)
                  then updateProgress vh (calcProgress vh networkHeight) w1 else w1 in
        if wasNotSynced ps1 && synced && (vh >? 0) then
          let ps2 := mkPageState (viewState ps1) (sessionTrackerStarted ps1) false true in
          match completion (mem w2) with
          | None => (mkPageState vComplete (sessionTrackerStarted ps2) false true,
                     markComplete now vh w2, true)
          | Some _ => (ps2, w2, false)
          end
        else (ps1, w2, false)
  end.

(** One effect run's inputs. *)
Record EffectInput := mkEffectInput {
  e_now : Z; e_chainInfo : option BlockchainInfo; e_loading : bool; e_networkHeight : Z
}.

(** Successive runs; the result counts the [markComplete] calls. *)
Fixpoint runEffects (ins : list EffectInput) (ps : PageState) (w : World)
  : PageState * World * nat :=
  match ins with
  | [] => (ps, w, 0%nat)
  | i :: rest =>
      let '(ps1, w1, called) :=
        syncEffect (e_now i) (e_chainInfo i) (e_loading i) (e_networkHeight i) ps w in
      let '(ps2, w2, n) := runEffects rest ps1 w1 in
      (ps2, w2, if called then S n else n)
  end.

End SyncEffect.

(* ================================================================== *)
(** * Properties *)

(* ------------------------------------------------------------------ *)
(** ** Sync detection *)

Module SyncPageFacts.
Import SyncPage.

Definition info (ibd : bool) (validated : Z) : BlockchainInfo :=
  mkBlockchainInfo validated validated ibd false.

Example isSynced_ibd : isSynced (Some (info true 800000)) 800000 = false.
Proof. reflexivity. Qed.

Example isSynced_no_chain_info : isSynced None 0 = false.
Proof. reflexivity. Qed.

Example isSynced_exactly_ten_behind : isSynced (Some (info false 799990)) 800000 = true.
Proof. reflexivity. Qed.

Lemma max0_gtb_10 (x : Z) : (Z.max 0 x >? 10) = (x >? 10).
Proof.
  rewrite !Z.gtb_ltb.
  destruct (Z.max_spec 0 x) as [[H E] | [H E]]; rewrite E; [reflexivity |].
  symmetry. apply Z.ltb_ge. lia.
Qed.

(** C1: with chain info present, [isSynced] follows the triangulation
    rule: reported IBD, then the zero-validated override, then the
    10-block tolerance; and the three concrete snapshots
    (false, 0, 800000), (false, 799995, 800000), (false, 799988, 800000)
    evaluate to not-synced, synced and not-synced. *)
Theorem isSynced_triangulation :
  (forall (i : BlockchainInfo) (networkHeight : Z),
      isSynced (Some i) networkHeight =
        if initialblockdownload i then false
        else if (blocks i =? 0) && (networkHeight >? 0) then false
        else if networkHeight - blocks i >? 10 then false
        else true) /\
  isSynced (Some (info false 0)) 800000 = false /\
  isSynced (Some (info false 799995)) 800000 = true /\
  isSynced (Some (info false 799988)) 800000 = false.
Proof.
  split; [| repeat split; reflexivity].
  intros i nh. unfold isSynced, blocksRemaining, validatedHeight.
  now rewrite max0_gtb_10.
Qed.

End SyncPageFacts.

(* ------------------------------------------------------------------ *)
(** ** Mode detection *)

Module NodeModeFacts.
Import NodeModeStore.
Local Open Scope string_scope.

Definition statsWithMode (m : string) : ObserverStats :=
  mkObserverStats m 60 8 0 (mkMessagesReceived 0 0 0 0 0 0 0 0 0 0 0 0 0).

Example detect_full_pruned :
  detectMode (Some (statsWithMode "full")) (Some (mkBlockchainInfo 5 5 true true)) = validate_lite.
Proof. reflexivity. Qed.

(** C5: [detectMode] is a function of [(stats, info)] alone (a Rocq
    function: total and deterministic) with: absent stats give unknown;
    mode "observer" gives observer whatever info is; mode "full" gives
    validate-lite when info is present and pruned, validate-archival when
    info is present and not pruned or when info is absent; any other mode
    string gives unknown. *)
Theorem detectMode_cases :
  (forall info, detectMode None info = unknown) /\
  (forall st info, mode st = "observer" -> detectMode (Some st) info = observer) /\
  (forall st i, mode st = "full" ->
      detectMode (Some st) (Some i) = if pruned i then validate_lite else validate_archival) /\
  (forall st, mode st = "full" -> detectMode (Some st) None = validate_archival) /\
  (forall st info, mode st <> "observer" -> mode st <> "full" ->
      detectMode (Some st) info = unknown).
Proof.
  repeat split.
  - intros st info H. unfold detectMode. now rewrite H.
  - intros st i H. unfold detectMode. now rewrite H.
  - intros st H. unfold detectMode. now rewrite H.
  - intros st info H1 H2. unfold detectMode.
    apply String.eqb_neq in H1, H2. now rewrite H1, H2.
Qed.

Lemma detectMode_cases_witness :
  detectMode (Some (statsWithMode "observer")) (Some (mkBlockchainInfo 5 5 false true)) = observer /\
  detectMode (Some (statsWithMode "full")) (Some (mkBlockchainInfo 5 5 false true)) = validate_lite /\
  detectMode (Some (statsWithMode "full")) None = validate_archival /\
  detectMode (Some (statsWithMode "light")) None = unknown.
Proof.
  destruct detectMode_cases as (_ & Hobs & Hfull & Hnone & Hother).
  split; [apply Hobs; reflexivity |].
  split; [rewrite (Hfull (statsWithMode "full") _ eq_refl); reflexivity |].
  split; [apply Hnone; reflexivity |].
  apply Hother; discriminate.
Defined.

End NodeModeFacts.

(* ------------------------------------------------------------------ *)
(** ** Connection store *)

Module ConnectionFacts.
Local Open Scope string_scope.
Import Connection.

(** C10: [disconnect] sets the status to disconnected, clears the cached
    stats and stops the timer; config, lastError, lastCheck, blockHeight,
    lastBlockHeightFetch and networkHashrate keep their values. *)
Theorem disconnect_frame (st : Store) :
  let s := connectionState st in
  let s' := connectionState (disconnect st) in
  status s' = disconnected /\ stats s' = None /\
  config s' = config s /\ lastError s' = lastError s /\
  lastCheck s' = lastCheck s /\ blockHeight s' = blockHeight s /\
  lastBlockHeightFetch s' = lastBlockHeightFetch s /\
  networkHashrate s' = networkHashrate s /\
  healthCheckTimer (disconnect st) = false.
Proof. cbn. repeat split. Qed.

Definition sampleStats (m : string) (startH : Z) : ObserverStats :=
  mkObserverStats m 3600 8 startH (mkMessagesReceived 1 1 20 20 3 50 4 2 900 7 0 1 5).

Example statsChanged_peer_count :
  statsChanged (Some (sampleStats "full" 0))
    (Some (mkObserverStats "full" 3600 9 0 (messages_received (sampleStats "full" 0)))) = true.
Proof. reflexivity. Qed.

(** The fields [statsChanged] compares: peer count, uptime and eight of
    the thirteen message counters. *)
Definition comparedFieldsDiffer (o n : ObserverStats) : Prop :=
  let om := messages_received o in
  let nm := messages_received n in
  peer_count o <> peer_count n \/ uptime_seconds o <> uptime_seconds n \/
  m_version om <> m_version nm \/ m_verack om <> m_verack nm \/
  m_ping om <> m_ping nm \/ m_pong om <> m_pong nm \/
  m_inv om <> m_inv nm \/ m_getdata om <> m_getdata nm \/
  m_block om <> m_block nm \/ m_tx om <> m_tx nm.

Lemma statsChanged_some_iff (o n : ObserverStats) :
  statsChanged (Some o) (Some n) = true <-> comparedFieldsDiffer o n.
Proof.
  unfold statsChanged, comparedFieldsDiffer.
  rewrite !orb_true_iff, !negb_true_iff, !Z.eqb_neq. tauto.
Qed.

(** C2 (counterexample): two snapshots that differ in the mode tag only
    are reported unchanged. *)
Lemma statsChanged_mode_counterexample :
  mode (sampleStats "observer" 0) <> mode (sampleStats "full" 0) /\
  statsChanged (Some (sampleStats "observer" 0)) (Some (sampleStats "full" 0)) = false.
Proof. split; [discriminate | reflexivity]. Qed.

(** C2 (amended): [statsChanged] is symmetric, false on equal arguments
    (null-vs-null included), true when exactly one side is null, and on
    two snapshots true exactly when peer count, uptime or one of the
    version, verack, ping, pong, inv, getdata, block, tx counters differ;
    mode, start height and the addr, headers, getblocks, getheaders and
    other counters are not compared. *)
Theorem statsChanged_symmetric_compared_fields :
  (forall a b, statsChanged a b = statsChanged b a) /\
  (forall s, statsChanged s s = false) /\
  (forall n, statsChanged None (Some n) = true /\ statsChanged (Some n) None = true) /\
  (forall o n, statsChanged (Some o) (Some n) = true <-> comparedFieldsDiffer o n).
Proof.
  split; [| split; [| split]].
  - intros [o |] [n |]; try reflexivity.
    apply Bool.eq_iff_eq_true. rewrite !statsChanged_some_iff.
    unfold comparedFieldsDiffer. lia.
  - intros [o |]; [| reflexivity].
    unfold statsChanged. rewrite !Z.eqb_refl. reflexivity.
  - intros n. split; reflexivity.
  - exact statsChanged_some_iff.
Qed.

End ConnectionFacts.

(* ------------------------------------------------------------------ *)
(** ** External reference fetch *)

Module ExternalDataFacts.
Import Connection ExternalData.

Definition s0 : ConnectionState := initialState DEFAULT_CONFIG.

(** C7 (counterexample): a fetch at t = 100000 that returns height 0 and a
    non-zero hashrate is recorded ([lastBlockHeightFetch] = 100000); a call
    one second later, inside the 30-second window, issues the requests
    again and changes the state. *)
Lemma fetch_inside_window_counterexample :
  let '(r1, s1) := fetchExternalData 100000 (0, 5) s0 in
  let '(r2, s2) := fetchExternalData 101000 (800000, 5) s1 in
  r1 = true /\ lastBlockHeightFetch s1 = 100000 /\ 101000 - 100000 < 30000 /\
  r2 = true /\ s2 <> s1.
Proof. cbn. repeat split; try discriminate; lia. Qed.

(** C7 (amended): a call is a no-op (no request, state unchanged) when
    [blockHeight] is non-zero and less than 30 s have passed since
    [lastBlockHeightFetch]; while [blockHeight] is 0 every call issues the
    requests, and so does every call 30 s or more after the last
    recorded fetch. *)
Theorem fetch_window_gate :
  (forall now fetched s, blockHeight s <> 0 ->
      now - lastBlockHeightFetch s < BLOCK_HEIGHT_REFRESH_INTERVAL ->
      fetchExternalData now fetched s = (false, s)) /\
  (forall now fetched s, blockHeight s = 0 -> fst (fetchExternalData now fetched s) = true) /\
  (forall now fetched s, BLOCK_HEIGHT_REFRESH_INTERVAL <= now - lastBlockHeightFetch s ->
      fst (fetchExternalData now fetched s) = true).
Proof.
  split; [| split].
  - intros now f s H1 H2. unfold fetchExternalData.
    apply Z.eqb_neq in H1. apply Z.ltb_lt in H2. now rewrite H1, H2.
  - intros now [h hr] s H. unfold fetchExternalData.
    rewrite H. cbn. now destruct (negb (h =? 0) || negb (hr =? 0)).
  - intros now [h hr] s H. unfold fetchExternalData.
    apply Z.ltb_ge in H. rewrite H, andb_false_r.
    now destruct (negb (h =? 0) || negb (hr =? 0)).
Qed.

Definition s1 : ConnectionState := snd (fetchExternalData 100000 (800000, 5) s0).

Lemma fetch_window_gate_witness :
  fetchExternalData 110000 (800001, 6) s1 = (false, s1) /\
  fst (fetchExternalData 101000 (0, 0) s0) = true /\
  fst (fetchExternalData 130000 (800001, 6) s1) = true.
Proof.
  destruct fetch_window_gate as (Hno & Hzero & Hlate).
  split; [apply Hno; vm_compute; congruence |].
  split; [apply Hzero; reflexivity |].
  apply Hlate. vm_compute. congruence.
Defined.

End ExternalDataFacts.

(* ------------------------------------------------------------------ *)
(** ** JSON-RPC transport *)

Module RpcClientFacts.
Import RpcClient.

(** A successful HTTP response whose body carries no [result] field. *)
Definition missingResult : RPCResponse nat := mkRPCResponse JUndefined None.
Definition nullResult : RPCResponse nat := mkRPCResponse JNull None.

(** C6: the batched path rejects a null or missing result, and the single
    path rejects a null result, but the single path resolves with
    [undefined] when the [result] field is missing. *)
Theorem rpcCall_missing_result_resolves :
  rpcCall (FetchResponse true 200 missingResult) = Resolved JUndefined /\
  rpcCall (FetchResponse true 200 nullResult) = Rejected (RpcNullResult None) /\
  rpcBatchCall (FetchResponse true 200 (BArray [missingResult])) = Rejected (RpcNullResult (Some 0%nat)) /\
  rpcBatchCall (FetchResponse true 200 (BArray [nullResult])) = Rejected (RpcNullResult (Some 0%nat)).
Proof. repeat split. Qed.

End RpcClientFacts.

(* ------------------------------------------------------------------ *)
(** ** Milestone checks *)

Module MilestoneFacts.
Import Milestones.

Definition segwit : Milestone := mkMilestone 481824 "SegWit Activates"%string.

Example between_segwit : getMilestonesBetween 480001 482000 = [segwit].
Proof. reflexivity. Qed.

Example dismissed_segwit_not_refired :
  snd (run [Poll 480000; Poll 482000; Dismiss; Poll 482000; Poll 600000] initialMilestoneState)
  = [segwit].
Proof. reflexivity. Qed.

Lemma getMilestonesBetween_spec (l h : Z) (m : Milestone) :
  In m (getMilestonesBetween (l + 1) h) <-> In m MILESTONES /\ l < height m <= h.
Proof.
  unfold getMilestonesBetween. rewrite filter_In, andb_true_iff, !Z.leb_le.
  split; intros [H1 H2]; split; auto; lia.
Qed.

Lemma find_first {A} (p : A -> bool) (k : list A) (x : A) :
  find p k = Some x ->
  exists k1 k2, k = k1 ++ x :: k2 /\ p x = true /\ Forall (fun y => p y = false) k1.
Proof.
  induction k as [| a k IH]; cbn; [discriminate |].
  destruct (p a) eqn:Ha.
  - intros [= <-]. exists [], k. auto.
  - intros H. destruct (IH H) as (k1 & k2 & -> & Hx & Hk1).
    exists (a :: k1), k2. auto.
Qed.

(** The backwards scan returns the last element of the list that is not
    dismissed, or nothing when all are dismissed. *)
Lemma mostRecentNotDismissed_spec (d : list Z) (passed : list Milestone) :
  match mostRecentNotDismissed d passed with
  | Some m => exists l1 l2, passed = l1 ++ m :: l2 /\ has d (height m) = false /\
                             Forall (fun x => has d (height x) = true) l2
  | None => Forall (fun x => has d (height x) = true) passed
  end.
Proof.
  unfold mostRecentNotDismissed.
  destruct (find _ (rev passed)) as [m |] eqn:E.
  - destruct (find_first _ _ _ E) as (k1 & k2 & Hk & Hm & Hk1).
    exists (rev k2), (rev k1). split; [| split].
    + rewrite <- (rev_involutive passed), Hk, rev_app_distr. cbn.
      now rewrite <- app_assoc.
    + now apply negb_true_iff.
    + apply Forall_rev in Hk1. eapply Forall_impl; [| exact Hk1].
      cbn. intros x Hx. now apply negb_false_iff.
  - apply Forall_forall. intros x Hx.
    apply in_rev in Hx.
    destruct (has d (height x)) eqn:Hd; [reflexivity |].
    exfalso. eapply find_none in E; [| exact Hx]. rewrite Hd in E. discriminate.
Qed.

(** C3 (counterexample): a first poll at height 0 leaves the checkpoint at
    0, so the second poll at 482,000 is taken as a baseline too and
    SegWit, inside (0, 482000], is never surfaced. *)
Lemma first_poll_at_zero_counterexample :
  lastMilestoneCheckHeight (fst (run [Poll 0] initialMilestoneState)) = 0 /\
  In segwit (getMilestonesBetween (0 + 1) 482000) /\
  snd (run [Poll 0; Poll 482000] initialMilestoneState) = [].
Proof. split; [reflexivity | split; [cbn; tauto | reflexivity]]. Qed.

(** C3 (amended): while the checkpoint is 0 a check only sets the
    checkpoint to the current height and surfaces nothing (a first poll
    at height 0 keeps it at 0); with a non-zero checkpoint [L], a check at
    [h > L] collects exactly the milestones with [L < height <= h],
    surfaces the last of them not dismissed (keeping the previous
    notification when all are dismissed) and sets the checkpoint to [h];
    a check at [h <= L] changes nothing. From no checkpoint, polls at
    480,000 then 482,000 surface SegWit (481,824) exactly once. *)
Theorem checkMilestones_baseline_then_interval :
  (forall s h, lastMilestoneCheckHeight s = 0 ->
     checkMilestones h s =
       (mkMilestoneState (currentMilestoneNotification s) (dismissedMilestones s) h, None)) /\
  (forall s h, lastMilestoneCheckHeight s <> 0 -> h <= lastMilestoneCheckHeight s ->
     checkMilestones h s = (s, None)) /\
  (forall s h, lastMilestoneCheckHeight s <> 0 -> lastMilestoneCheckHeight s < h ->
     let fired := mostRecentNotDismissed (dismissedMilestones s)
                    (getMilestonesBetween (lastMilestoneCheckHeight s + 1) h) in
     checkMilestones h s =
       (mkMilestoneState
          (match fired with Some m => Some m | None => currentMilestoneNotification s end)
          (dismissedMilestones s) h, fired)) /\
  (forall l h m, In m (getMilestonesBetween (l + 1) h) <-> In m MILESTONES /\ l < height m <= h) /\
  snd (run [Poll 480000; Poll 482000] initialMilestoneState) = [segwit].
Proof.
  split; [| split; [| split; [| split]]].
  - intros s h H. unfold checkMilestones. now rewrite H.
  - intros s h H1 H2. unfold checkMilestones.
    apply Z.eqb_neq in H1. apply Z.leb_le in H2. now rewrite H1, H2.
  - intros s h H1 H2 fired. unfold checkMilestones.
    apply Z.eqb_neq in H1. apply Z.leb_gt in H2. rewrite H1, H2.
    subst fired. now destruct (mostRecentNotDismissed _ _).
  - exact getMilestonesBetween_spec.
  - reflexivity.
Qed.

Definition s480 : MilestoneState := mkMilestoneState None [] 480000.

Lemma checkMilestones_baseline_then_interval_witness :
  checkMilestones 480000 initialMilestoneState = (s480, None) /\
  checkMilestones 470000 s480 = (s480, None) /\
  checkMilestones 482000 s480 = (mkMilestoneState (Some segwit) [] 482000, Some segwit).
Proof.
  destruct checkMilestones_baseline_then_interval as (Hbase & Hstay & Hstep & _ & _).
  split; [apply (Hbase initialMilestoneState 480000); reflexivity |].
  split; [apply Hstay; cbn; [discriminate | lia] |].
  rewrite (Hstep s480 482000); [reflexivity | cbn; discriminate | cbn; lia].
Defined.

Lemma checkMilestones_fired_height (h : Z) (s s' : MilestoneState) (m : Milestone) :
  0 <= lastMilestoneCheckHeight s ->
  checkMilestones h s = (s', Some m) ->
  0 < lastMilestoneCheckHeight s < height m /\ height m <= h.
Proof.
  intros Hnn. unfold checkMilestones.
  destruct (lastMilestoneCheckHeight s =? 0) eqn:E0; [congruence |].
  apply Z.eqb_neq in E0.
  destruct (h <=? lastMilestoneCheckHeight s); [congruence |].
  destruct (mostRecentNotDismissed _ _) as [m' |] eqn:Ef; [| congruence].
  intros [= _ <-].
  unfold mostRecentNotDismissed in Ef. apply find_some in Ef as [Hin _].
  apply in_rev, getMilestonesBetween_spec in Hin. lia.
Qed.

Lemma checkMilestones_checkpoint_nonneg (h : Z) (s : MilestoneState) :
  0 <= lastMilestoneCheckHeight s -> 0 <= h ->
  0 <= lastMilestoneCheckHeight (fst (checkMilestones h s)).
Proof.
  intros H1 H2. unfold checkMilestones.
  destruct (_ =? 0); [exact H2 |].
  destruct (_ <=? _); [exact H1 |].
  now destruct (mostRecentNotDismissed _ _).
Qed.

Lemma run_fired_positive (evs : list Event) (s : MilestoneState) :
  0 <= lastMilestoneCheckHeight s ->
  (forall h, In (Poll h) evs -> 0 <= h) ->
  forall m, In m (snd (run evs s)) -> 0 < height m.
Proof.
  revert s. induction evs as [| [h |] evs IH]; intros s Hs Hpolls m Hm; cbn in Hm.
  - contradiction.
  - destruct (checkMilestones h s) as [s1 fired] eqn:Ec.
    assert (Hs1 : 0 <= lastMilestoneCheckHeight s1).
    { change s1 with (fst (s1, fired)). rewrite <- Ec.
      apply checkMilestones_checkpoint_nonneg; [exact Hs | apply Hpolls; now left]. }
    destruct (run evs s1) as [s2 out] eqn:Er. cbn in Hm.
    assert (Hout : forall m, In m out -> 0 < height m).
    { intros m' Hm'. change out with (snd (s2, out)) in Hm'. rewrite <- Er in Hm'.
      eapply IH; [exact Hs1 | intros h' Hh'; apply Hpolls; now right | exact Hm']. }
    destruct fired as [m0 |].
    + destruct Hm as [<- | Hm]; [| now apply Hout].
      apply checkMilestones_fired_height in Ec; [lia | exact Hs].
    + now apply Hout.
  - apply (IH (dismissMilestone s)); auto.
    + unfold dismissMilestone. now destruct (currentMilestoneNotification s).
    + intros h' Hh'. apply Hpolls. now right.
Qed.

(** C9: the Genesis Block (the milestone at height 0) is never surfaced:
    over any sequence of polls at non-negative heights and dismissals,
    starting from a non-negative checkpoint, no surfaced milestone has
    height 0; a check with checkpoint 0 (the no-baseline sentinel) only
    sets the checkpoint to the polled height, so a first check at 0 keeps
    the sentinel; and with a checkpoint [L > 0] the checked interval
    [L+1 .. h] contains no milestone at height 0. *)
Theorem genesis_never_surfaced :
  In (mkMilestone 0 "Genesis Block"%string) MILESTONES /\
  (forall evs s, 0 <= lastMilestoneCheckHeight s ->
     (forall h, In (Poll h) evs -> 0 <= h) ->
     forall m, In m (snd (run evs s)) -> height m <> 0) /\
  (forall s h, lastMilestoneCheckHeight s = 0 ->
     snd (checkMilestones h s) = None /\ lastMilestoneCheckHeight (fst (checkMilestones h s)) = h) /\
  (forall l h m, 0 < l -> In m (getMilestonesBetween (l + 1) h) -> height m <> 0).
Proof.
  split; [cbn; now left |].
  split; [| split].
  - intros evs s Hs Hp m Hm. pose proof (run_fired_positive evs s Hs Hp m Hm). lia.
  - intros s h H. unfold checkMilestones. now rewrite H.
  - intros l h m Hl Hm. apply getMilestonesBetween_spec in Hm. lia.
Qed.

Lemma genesis_never_surfaced_witness :
  height (mkMilestone 0 "Genesis Block"%string) = 0 /\
  ~ In (mkMilestone 0 "Genesis Block"%string)
      (snd (run [Poll 0; Poll 100; Poll 500000; Dismiss; Poll 900000] initialMilestoneState)) /\
  lastMilestoneCheckHeight (fst (checkMilestones 0 initialMilestoneState)) = 0 /\
  ~ In (mkMilestone 0 "Genesis Block"%string) (getMilestonesBetween (100 + 1) 900000).
Proof.
  destruct genesis_never_surfaced as (_ & Hrun & Hfirst & Hint).
  split; [reflexivity |].
  split.
  { intros Hin. apply (Hrun _ initialMilestoneState) in Hin; [now apply Hin | cbn; lia |].
    intros h Hh. cbn in Hh.
    repeat destruct Hh as [Hh | Hh]; try discriminate; try contradiction;
      injection Hh as <-; lia. }
  split; [apply (Hfirst initialMilestoneState 0); reflexivity |].
  intros Hin. apply (Hint 100 900000) in Hin; [now apply Hin | lia].
Defined.

End MilestoneFacts.

(* ------------------------------------------------------------------ *)
(** ** Sync page [$effect]: one run and its frame *)

Module SyncEffectLemmas.
Import SessionHistory SyncPage SyncProgress SyncEffect.

Lemma startSessionTracking_frame (now : Z) (ci : option BlockchainInfo) (nh : Z)
  (ps : PageState) (w : World) :
  let '(ps1, w1) := startSessionTracking now ci nh ps w in
  wasNotSynced ps1 = wasNotSynced ps /\ completion (mem w1) = completion (mem w).
Proof.
  unfold startSessionTracking. destruct ci; [| auto].
  destruct (sessionTrackerStarted ps); [auto |]. cbn.
  split; [reflexivity |]. unfold startSession. now destruct (currentSession (mem w)).
Qed.

Lemma syncEffect_step (now : Z) (ci : option BlockchainInfo) (lf : bool) (nh : Z)
  (ps : PageState) (w : World) :
  let '(ps1, w1, c) := syncEffect now ci lf nh ps w in
  (wasNotSynced ps1 = true -> wasNotSynced ps = true) /\
  (completion (mem w) <> None -> completion (mem w1) <> None) /\
  (c = true -> wasNotSynced ps = true /\ completion (mem w) = None /\
               wasNotSynced ps1 = false /\ completion (mem w1) <> None).
Proof.
  unfold syncEffect. destruct ci as [i |]; [| repeat split; auto; discriminate].
  destruct lf; [repeat split; auto; discriminate |].
  cbv zeta.
  set (e := if isSyncing (viewState ps) && negb (isSynced (Some i) nh)
            then startSessionTracking now (Some i) nh ps w else (ps, w)).
  assert (Hf : wasNotSynced (fst e) = wasNotSynced ps /\ completion (mem (snd e)) = completion (mem w)).
  { unfold e. destruct (_ && _); [| auto].
    pose proof (startSessionTracking_frame now (Some i) nh ps w) as H.
    destruct (startSessionTracking _ _ _ _ _). exact H. }
  clearbody e. destruct e as [ps1 w1]. cbn [fst snd] in Hf. destruct Hf as [Hw Hc].
  set (w2 := if sessionTrackerStarted ps1 && (validatedHeight (Some i) >? 0)
             then updateProgress (validatedHeight (Some i))
                    (calcProgress (validatedHeight (Some i)) nh) w1 else w1).
  assert (Hc2 : completion (mem w2) = completion (mem w1)) by (unfold w2; destruct (_ && _); reflexivity).
  clearbody w2.
  destruct (wasNotSynced ps1 && _ && _) eqn:Ec.
  - apply andb_true_iff in Ec as [[Hn _]%andb_true_iff _].
    destruct (completion (mem w2)) eqn:Ecomp; cbn -[markComplete].
    + repeat split; try discriminate; congruence.
    + repeat split; try discriminate; try congruence.
      all: unfold markComplete; destruct (currentSession (mem w2)); cbn; discriminate.
  - repeat split; try discriminate; congruence.
Qed.

Lemma runEffects_frame (ins : list EffectInput) (ps : PageState) (w : World) :
  let '(ps', w', _) := runEffects ins ps w in
  (wasNotSynced ps = false -> wasNotSynced ps' = false) /\
  (completion (mem w) <> None -> completion (mem w') <> None).
Proof.
  revert ps w. induction ins as [| i rest IH]; intros ps w; cbn; [auto |].
  pose proof (syncEffect_step (e_now i) (e_chainInfo i) (e_loading i) (e_networkHeight i) ps w)
    as Hs.
  destruct (syncEffect _ _ _ _ ps w) as [[ps1 w1] c].
  specialize (IH ps1 w1). destruct (runEffects rest ps1 w1) as [[ps2 w2] n].
  destruct Hs as (H1 & H2 & _). destruct IH as (I1 & I2).
  split.
  - intros H. apply I1. destruct (wasNotSynced ps1) eqn:E; auto.
    specialize (H1 eq_refl). congruence.
  - intros H. apply I2, H2, H.
Qed.

End SyncEffectLemmas.

(* ------------------------------------------------------------------ *)
(** ** Session History Ledger *)

Module SessionHistoryFacts.
Import SessionHistory.

(** The session [endSession] appends when it closes [cs] at [now]. *)
Definition closed (cs : SyncSession) (now endB : Z) : SyncSession :=
  mkSyncSession (id cs) (startTime cs) (Some now) (startBlocks cs) (Some endB) (networkHeight cs).

Example one_session_then_complete :
  let w := markComplete 9000 800000 (startSession 1000 500 800000 freshWorld) in
  completion (mem w) = Some (mkSyncCompletion 9000 1 800000 8000).
Proof. reflexivity. Qed.

(** C4 (counterexample): with a completion record already set, a second
    [markComplete] at a later time is not a no-op: it rewrites the record
    with a new [completedAt]. *)
Lemma markComplete_not_noop_counterexample :
  let w1 := markComplete 10 100 freshWorld in
  completion (mem w1) <> None /\ markComplete 20 100 w1 <> w1.
Proof.
  split; [discriminate |].
  intros H. apply (f_equal (fun w => option_map completedAt (completion (mem w)))) in H.
  discriminate.
Qed.

(** C4 (amended): [markComplete] has no already-complete guard; the sync
    page only calls it while no completion record exists (a run of the
    page's [$effect] that calls it starts from no completion record, and
    no run calls it once a record exists). Each call closes the active
    session (if any) once, recomputes [totalSessions] and [totalTimeMs]
    from the full session list and overwrites the single completion
    record. A second successive call with the same [totalBlocks] adds no
    session and gives the same [totalSessions], [totalBlocks],
    [totalTimeMs], last-known height and progress; only [completedAt]
    becomes the time of the second call. *)
Theorem markComplete_twice_no_double_count (w : World) (t1 t2 tb : Z) :
  (forall now ci lf nh ps w0,
     let '(_, _, called) := SyncEffect.syncEffect now ci lf nh ps w0 in
     called = true -> completion (mem w0) = None) /\
  (forall ins ps w0,
     completion (mem w0) <> None -> snd (SyncEffect.runEffects ins ps w0) = 0%nat) /\
  (let w1 := markComplete t1 tb w in
   let w2 := markComplete t2 tb w1 in
   sessions (mem w1) = sessions (mem w) ++ match currentSession (mem w) with
                                           | Some cs => [closed cs t1 tb] | None => [] end /\
   sessions (mem w2) = sessions (mem w1) /\
   currentSession (mem w2) = None /\
   lastKnownHeight (mem w2) = lastKnownHeight (mem w1) /\
   lastKnownProgress (mem w2) = lastKnownProgress (mem w1) /\
   exists c, completion (mem w1) = Some c /\
     totalSessions c = Z.of_nat (List.length (sessions (mem w1))) /\
     totalTimeMs c = sumSessionTime (sessions (mem w1)) /\
     totalBlocks c = tb /\
     completion (mem w2) = Some (mkSyncCompletion t2 (totalSessions c) tb (totalTimeMs c))).
Proof.
  split.
  { intros now ci lf nh ps w0.
    pose proof (SyncEffectLemmas.syncEffect_step now ci lf nh ps w0) as H.
    destruct (SyncEffect.syncEffect _ _ _ _ _ _) as [[ps1 w1] c].
    intros Hc. exact (proj1 (proj2 (proj2 (proj2 H) Hc))). }
  split.
  { intros ins. induction ins as [| i rest IH]; intros ps w0 Hw; cbn; [reflexivity |].
    pose proof (SyncEffectLemmas.syncEffect_step (SyncEffect.e_now i) (SyncEffect.e_chainInfo i)
                  (SyncEffect.e_loading i) (SyncEffect.e_networkHeight i) ps w0) as H.
    destruct (SyncEffect.syncEffect _ _ _ _ ps w0) as [[ps1 w1] c].
    specialize (IH ps1 w1). destruct (SyncEffect.runEffects rest ps1 w1) as [[ps2 w2] n].
    cbn in IH |- *. destruct H as (_ & H2 & H3). destruct c.
    - exfalso. destruct (H3 eq_refl) as (_ & Hn & _). contradiction.
    - apply IH, H2, Hw. }
  cbn zeta. unfold markComplete, endSession.
  destruct (currentSession (mem w)) as [cs |] eqn:E; cbn; rewrite ?E; cbn; rewrite ?app_nil_r;
    (split; [reflexivity |]); repeat split; eexists; repeat split.
Qed.

(** [updateProgress], [endSession] (on an active session) and
    [markComplete] write the session list and both scalars through. *)
Lemma write_through_siblings (w : World) (now h : Z) (p : Q) :
  persisted (updateProgress h p w) /\
  match currentSession (mem w) with
  | Some _ => persisted (endSession now h w)
  | None => endSession now h w = w
  end /\
  persisted (markComplete now h w).
Proof.
  unfold persisted, updateProgress, markComplete, endSession.
  destruct (currentSession (mem w)); cbn; repeat split.
Qed.

(** C8: [startSession] updates [lastKnownHeight] in memory without calling
    [saveState]: from a state whose storage agrees with memory, starting a
    session at height 500 leaves the stored last height at 100. *)
Theorem startSession_not_written_through :
  let w1 := updateProgress 100 (25 # 1) freshWorld in
  let w2 := startSession 5000 500 800000 w1 in
  persisted w1 /\
  lastKnownHeight (mem w2) = 500 /\
  storedLastHeight (storage w2) = Some 100 /\
  ~ persisted w2.
Proof.
  cbn. split; [repeat split |]. split; [reflexivity |]. split; [reflexivity |].
  intros (_ & H & _). discriminate.
Qed.

End SessionHistoryFacts.

(* ------------------------------------------------------------------ *)
(** ** Milestone lookups *)

Module MilestoneLookupFacts.
Import Milestones MilestoneLookup.

Definition below (a b : Milestone) : Prop := height a < height b.

Lemma MILESTONES_sorted : StronglySorted below MILESTONES.
Proof. repeat constructor; unfold below; cbn; lia. Qed.

Lemma find_above_first (L : list Milestone) (h : Z) (n : Milestone) :
  StronglySorted below L ->
  find (fun m => h <? height m) L = Some n ->
  In n L /\ h < height n /\ forall m, In m L -> h < height m -> height n <= height m.
Proof.
  induction L as [| a L IH]; cbn; [discriminate |].
  intros Hs. apply StronglySorted_inv in Hs as [Hs Ha].
  destruct (h <? height a) eqn:E.
  - intros [= <-]. apply Z.ltb_lt in E. split; [now left | split; [exact E |]].
    intros m [-> | Hm]; [lia |].
    rewrite Forall_forall in Ha. specialize (Ha m Hm). unfold below in Ha. lia.
  - intros Hf. apply Z.ltb_ge in E. destruct (IH Hs Hf) as (Hin & Hlt & Hmin).
    split; [now right | split; [exact Hlt |]].
    intros m [-> | Hm] Hgt; [lia | now apply Hmin].
Qed.

Lemma sorted_last_max (P : list Milestone) (l : Milestone) :
  StronglySorted below (P ++ [l]) -> forall m, In m P -> below m l.
Proof.
  induction P as [| a P IH]; cbn; [tauto |].
  intros Hs. apply StronglySorted_inv in Hs as [Hs Ha].
  intros m [<- | Hm]; [| now apply IH].
  rewrite Forall_forall in Ha. apply Ha, in_or_app. right. now left.
Qed.

Lemma StronglySorted_filter {A} (R : A -> A -> Prop) (f : A -> bool) (L : list A) :
  StronglySorted R L -> StronglySorted R (filter f L).
Proof.
  induction L as [| a L IH]; cbn; [constructor |].
  intros Hs. apply StronglySorted_inv in Hs as [Hs Ha].
  destruct (f a); [constructor; [now apply IH |] |]; auto.
  rewrite Forall_forall in *. intros x Hx. apply filter_In in Hx as [Hx _]. auto.
Qed.

Lemma lastPassed_spec (h : Z) (l : Milestone) :
  getLastPassedMilestone h = Some l ->
  In l MILESTONES /\ height l <= h /\
  forall m, In m MILESTONES -> height m <= h -> height m <= height l.
Proof.
  unfold getLastPassedMilestone.
  remember (filter (fun m => height m <=? h) MILESTONES) as P eqn:EP.
  assert (HP : StronglySorted below P)
    by (subst P; apply StronglySorted_filter, MILESTONES_sorted).
  assert (HinP : forall m, In m P <-> In m MILESTONES /\ height m <= h).
  { intros m. subst P. rewrite filter_In, Z.leb_le. tauto. }
  intros Hn. assert (HP0 : P <> []) by (intros ->; discriminate).
  replace (match P with [] => None | _ :: _ => nth_error P (List.length P - 1) end)
    with (nth_error P (List.length P - 1)) in Hn by (destruct P; [contradiction | reflexivity]).
  destruct (exists_last HP0) as (P'' & z & Ez).
  rewrite Ez in Hn, HP, HinP.
  rewrite length_app, Nat.add_sub, nth_error_app2, Nat.sub_diag in Hn by lia.
  cbn in Hn. injection Hn as <-.
  assert (Hz : In z MILESTONES /\ height z <= h) by (apply HinP, in_or_app; right; now left).
  split; [tauto | split; [tauto |]].
  intros m Hm Hmh.
  assert (HmP : In m (P'' ++ [z])) by (apply HinP; auto).
  apply in_app_or in HmP as [HmP | [<- | []]]; [| lia].
  pose proof (sorted_last_max _ _ HP m HmP). unfold below in *. lia.
Qed.

Lemma filter_all_false {A} (f : A -> bool) (l : list A) :
  (forall x, In x l -> f x = false) -> filter f l = [].
Proof.
  induction l as [| a l IH]; cbn; [reflexivity |]. intros H.
  rewrite (H a (or_introl eq_refl)). apply IH. auto.
Qed.

Lemma find_all_false {A} (f : A -> bool) (l : list A) :
  (forall x, In x l -> f x = false) -> find f l = None.
Proof.
  induction l as [| a l IH]; cbn; [reflexivity |]. intros H.
  rewrite (H a (or_introl eq_refl)). apply IH. auto.
Qed.

Definition genesis : Milestone := mkMilestone 0 "Genesis Block"%string.
Definition fourthHalving : Milestone := mkMilestone 840000 "Fourth Halving"%string.

Lemma MILESTONES_range (m : Milestone) : In m MILESTONES -> 0 <= height m <= 840000.
Proof. cbn. intros H. repeat destruct H as [<- | H]; cbn; lia. Qed.

Lemma lastPassed_none (h : Z) : getLastPassedMilestone h = None <-> h < 0.
Proof.
  unfold getLastPassedMilestone. split.
  - intros H. destruct (Z.ltb_spec h 0) as [| Hge]; [assumption | exfalso].
    assert (Hin : In genesis (filter (fun m => height m <=? h) MILESTONES))
      by (apply filter_In; split; [cbn; now left | apply Z.leb_le; cbn; lia]).
    destruct (filter _ MILESTONES) as [| a P] eqn:E; [contradiction |].
    assert (Hlt : (List.length (a :: P) - 1 < List.length (a :: P))%nat) by (cbn; lia).
    apply nth_error_Some in Hlt. contradiction.
  - intros H. rewrite filter_all_false; [reflexivity |].
    intros x Hx. apply MILESTONES_range in Hx. apply Z.leb_gt. lia.
Qed.

Lemma next_none (h : Z) : getNextMilestone h = None <-> 840000 <= h.
Proof.
  unfold getNextMilestone. split.
  - intros H. destruct (Z.leb_spec 840000 h) as [| Hlt]; [assumption | exfalso].
    assert (Hin : In fourthHalving MILESTONES) by (cbn; tauto).
    pose proof (find_none _ _ H _ Hin) as Hf. apply Z.ltb_ge in Hf. cbn in Hf. lia.
  - intros H. apply find_all_false.
    intros x Hx. apply MILESTONES_range in Hx. apply Z.ltb_ge. lia.
Qed.

(** [getLastPassedMilestone] and [getNextMilestone] bracket a height: for
    [0 <= h < 840000] both exist, the last passed milestone is at or below
    [h], the next one strictly above, and no milestone lies strictly
    between them; [getLastPassedMilestone] is undefined exactly for
    negative heights and [getNextMilestone] exactly from 840,000 on. *)
Theorem last_next_bracket :
  (forall h, getLastPassedMilestone h = None <-> h < 0) /\
  (forall h, getNextMilestone h = None <-> 840000 <= h) /\
  (forall h l n, getLastPassedMilestone h = Some l -> getNextMilestone h = Some n ->
     In l MILESTONES /\ In n MILESTONES /\ height l <= h < height n /\
     forall m, In m MILESTONES -> height m <= height l \/ height n <= height m).
Proof.
  split; [exact lastPassed_none | split; [exact next_none |]].
  intros h l n Hl Hn.
  destruct (lastPassed_spec h l Hl) as (Hl1 & Hl2 & Hl3).
  destruct (find_above_first MILESTONES h n MILESTONES_sorted Hn) as (Hn1 & Hn2 & Hn3).
  split; [exact Hl1 | split; [exact Hn1 | split; [lia |]]].
  intros m Hm. destruct (Z.leb_spec (height m) h).
  - left. now apply Hl3.
  - right. now apply Hn3.
Qed.

Lemma last_next_bracket_witness :
  getLastPassedMilestone 500000 = Some (mkMilestone 481824 "SegWit Activates"%string) /\
  getNextMilestone 500000 = Some (mkMilestone 630000 "Third Halving"%string) /\
  481824 <= 500000 < 630000.
Proof.
  destruct last_next_bracket as (_ & _ & Hb).
  assert (Hl : getLastPassedMilestone 500000 = Some (mkMilestone 481824 "SegWit Activates"%string))
    by reflexivity.
  assert (Hn : getNextMilestone 500000 = Some (mkMilestone 630000 "Third Halving"%string))
    by reflexivity.
  destruct (Hb _ _ _ Hl Hn) as (_ & _ & Hh & _).
  split; [exact Hl | split; [exact Hn | exact Hh]].
Defined.

Lemma MILESTONES_height_inj (a b : Milestone) :
  In a MILESTONES -> In b MILESTONES -> height a = height b -> a = b.
Proof.
  pose proof MILESTONES_sorted as Hs. revert Hs. generalize MILESTONES as L.
  induction L as [| x L IH]; [contradiction |].
  intros Hs. apply StronglySorted_inv in Hs as [Hs Hx]. rewrite Forall_forall in Hx.
  intros [<- | Ha] [<- | Hb] Hab; auto.
  - specialize (Hx b Hb). unfold below in Hx. lia.
  - specialize (Hx a Ha). unfold below in Hx. lia.
Qed.

(** [getMilestoneAtHeight] finds exactly the milestone with the given
    height (heights in [MILESTONES] are distinct), and [isMilestoneHeight]
    holds exactly when [getMilestoneAtHeight] finds one. *)
Theorem milestoneAtHeight_exact :
  (forall h m, getMilestoneAtHeight h = Some m <-> In m MILESTONES /\ height m = h) /\
  (forall h, isMilestoneHeight h = true <-> exists m, getMilestoneAtHeight h = Some m).
Proof.
  split.
  - intros h m. unfold getMilestoneAtHeight. split.
    + intros Hf. apply find_some in Hf as [Hin He]. apply Z.eqb_eq in He. auto.
    + intros [Hin He].
      destruct (find (fun m => height m =? h) MILESTONES) as [m' |] eqn:Ef.
      * apply find_some in Ef as [Hin' He']. apply Z.eqb_eq in He'.
        f_equal. apply MILESTONES_height_inj; auto; lia.
      * pose proof (find_none _ _ Ef _ Hin) as Hn. apply Z.eqb_neq in Hn. contradiction.
  - intros h. unfold isMilestoneHeight, getMilestoneAtHeight.
    rewrite existsb_exists. split.
    + intros (m & Hin & He).
      destruct (find _ MILESTONES) as [m' |] eqn:Ef; [eauto |].
      rewrite (find_none _ _ Ef _ Hin) in He. discriminate.
    + intros (m & Hf). apply find_some in Hf. eauto.
Qed.

Lemma Q_ratio_bounds (c t : Z) :
  0 < t ->
  ((0 <= c)%Z -> (0 <= inject_Z c / inject_Z t * inject_Z 100)%Q) /\
  ((c < t)%Z -> (inject_Z c / inject_Z t * inject_Z 100 < inject_Z 100)%Q) /\
  ((t <= c)%Z -> (inject_Z 100 <= inject_Z c / inject_Z t * inject_Z 100)%Q).
Proof.
  intros Ht. destruct t as [| p | p]; try lia.
  unfold Qle, Qlt, Qdiv, Qmult, Qinv, inject_Z; cbn.
  repeat split; intros; nia.
Qed.

(** [getProgressToNextMilestone] at a non-negative height: [null]
    exactly from 840,000 on (every height from 840,000 on gives [null],
    and [null] only comes from such heights); otherwise it names the next
    milestone and a finite progress [q] with [0 <= q < 100]. *)
Theorem progressToNext_bounds (h : Z) :
  0 <= h ->
  (840000 <= h -> getProgressToNextMilestone h = None) /\
  match getProgressToNextMilestone h with
  | None => 840000 <= h
  | Some (n, p) => getNextMilestone h = Some n /\
                   exists q, p = Some q /\ (0 <= q)%Q /\ (q < inject_Z 100)%Q
  end.
Proof.
  intros Hh. split.
  { intros Hf. unfold getProgressToNextMilestone.
    now rewrite (proj2 (next_none h) Hf). }
  unfold getProgressToNextMilestone.
  destruct (getNextMilestone h) as [n |] eqn:En; [| now apply next_none].
  destruct (getLastPassedMilestone h) as [l |] eqn:El;
    [| apply lastPassed_none in El; lia].
  destruct last_next_bracket as (_ & _ & Hb).
  destruct (Hb h l n El En) as (_ & _ & Hlh & _).
  split; [reflexivity |].
  unfold jsDiv. rewrite (proj2 (Z.eqb_neq _ 0)) by lia. cbn [option_map].
  eexists; split; [reflexivity |].
  destruct (Q_ratio_bounds (h - height l) (height n - height l)) as (H0 & H1 & _); [lia |].
  split.
  - apply Q.min_glb; [apply H0; lia | unfold Qle; cbn; lia].
  - eapply Qle_lt_trans; [apply Q.le_min_l | apply H1; lia].
Qed.

Lemma progressToNext_bounds_witness :
  getProgressToNextMilestone 500000 =
    Some (mkMilestone 630000 "Third Halving"%string,
          Some (Qmin (inject_Z (500000 - 481824) / inject_Z (630000 - 481824) * inject_Z 100)
                     (inject_Z 100))) /\
  (0 <= Qmin (inject_Z (500000 - 481824) / inject_Z (630000 - 481824) * inject_Z 100)
             (inject_Z 100))%Q /\
  getProgressToNextMilestone 900000 = None.
Proof.
  split; [| split; [| apply (proj1 (progressToNext_bounds 900000 ltac:(lia))); lia]].
  all: pose proof (progressToNext_bounds 500000 ltac:(lia)) as H.
  all: assert (E : getProgressToNextMilestone 500000 =
    Some (mkMilestone 630000 "Third Halving"%string,
          Some (Qmin (inject_Z (500000 - 481824) / inject_Z (630000 - 481824) * inject_Z 100)
                     (inject_Z 100)))) by reflexivity.
  all: rewrite E in H; destruct H as (_ & _ & q & Hq & Hq0 & _); injection Hq as <-.
  - exact E.
  - exact Hq0.
Defined.

(** [isApproachingMilestone h] returns [(m, b)] exactly when [m] is the
    lowest milestone above [h] and it is [b] blocks away with
    [b <= 1000]. *)
Theorem isApproaching_spec (h : Z) (m : Milestone) (b : Z) :
  isApproachingMilestone h = Some (m, b) <->
  In m MILESTONES /\ h < height m /\ b = height m - h /\ b <= APPROACHING_THRESHOLD /\
  (forall m', In m' MILESTONES -> h < height m' -> height m <= height m').
Proof.
  unfold isApproachingMilestone. split.
  - destruct (getNextMilestone h) as [n |] eqn:En; [| discriminate].
    destruct (find_above_first MILESTONES h n MILESTONES_sorted En) as (Hin & Hlt & Hmin).
    destruct (_ && _) eqn:Et; [| discriminate].
    apply andb_true_iff in Et as [E1 _]. apply Z.leb_le in E1.
    intros [= <- <-]. repeat split; auto.
  - intros (Hin & Hlt & -> & Hb & Hmin).
    destruct (getNextMilestone h) as [n |] eqn:En.
    + destruct (find_above_first MILESTONES h n MILESTONES_sorted En) as (Hin' & Hlt' & Hmin').
      assert (n = m) as ->.
      { apply MILESTONES_height_inj; auto. specialize (Hmin n Hin' Hlt').
        specialize (Hmin' m Hin Hlt). lia. }
      rewrite (proj2 (Z.leb_le _ _) Hb), (proj2 (Z.gtb_lt _ _)) by lia. reflexivity.
    + unfold getNextMilestone in En. pose proof (find_none _ _ En _ Hin) as Hn.
      apply Z.ltb_ge in Hn. lia.
Qed.

End MilestoneLookupFacts.

(* ------------------------------------------------------------------ *)
(** ** Progress percentage *)

Module SyncProgressFacts.
Import SyncProgress.
Import MilestoneLookupFacts.

(** [calcProgress]: 0 when the network height is not positive; for a
    non-negative validated height it lies in [[0, 100]]; it is (equal to)
    100 once the validated height reaches a positive network height. *)
Theorem calcProgress_bounds :
  (forall v n, n <= 0 -> calcProgress v n = 0%Q) /\
  (forall v n, 0 <= v -> (0 <= calcProgress v n <= inject_Z 100)%Q) /\
  (forall v n, 0 < n <= v -> (calcProgress v n == inject_Z 100)%Q).
Proof.
  split; [| split].
  - intros v n H. unfold calcProgress. now rewrite (proj2 (Z.leb_le _ _) H).
  - intros v n Hv. unfold calcProgress.
    destruct (Z.leb_spec n 0); [split; unfold Qle; cbn; lia |].
    destruct (Q_ratio_bounds v n) as (H0 & _ & _); [lia |].
    split; [apply Q.min_glb; [now apply H0 | unfold Qle; cbn; lia] | apply Q.le_min_r].
  - intros v n Hn. unfold calcProgress.
    rewrite (proj2 (Z.leb_gt _ _)) by lia.
    destruct (Q_ratio_bounds v n) as (_ & _ & H2); [lia |].
    apply Q.min_r. apply H2. lia.
Qed.

Lemma calcProgress_bounds_witness :
  calcProgress 5 (-1) = 0%Q /\
  (0 <= calcProgress 400000 800000 <= inject_Z 100)%Q /\
  (calcProgress 800005 800000 == inject_Z 100)%Q.
Proof.
  destruct calcProgress_bounds as (H1 & H2 & H3).
  split; [apply H1; lia | split; [apply H2; lia | apply H3; lia]].
Defined.

End SyncProgressFacts.

(* ------------------------------------------------------------------ *)
(** ** Request ids *)

Module RequestIdsFacts.
Import RequestIds.

Lemma StronglySorted_app_lt (l1 l2 : list Z) (m : Z) :
  StronglySorted Z.lt l1 -> StronglySorted Z.lt l2 ->
  Forall (fun x => x < m) l1 -> Forall (fun x => m <= x) l2 ->
  StronglySorted Z.lt (l1 ++ l2).
Proof.
  induction l1 as [| a l1 IH]; cbn; auto.
  intros H1 H2 Hl1 Hl2. apply StronglySorted_inv in H1 as [H1 Ha].
  inversion Hl1; subst. constructor; [now apply IH |].
  apply Forall_app. split; [exact Ha |].
  eapply Forall_impl; [| exact Hl2]. cbn. intros. lia.
Qed.

Lemma batch_ids (s : Z) (n a : nat) :
  let ids := map (fun index => s + Z.of_nat index) (seq a n) in
  StronglySorted Z.lt ids /\ Forall (fun x => s + Z.of_nat a <= x < s + Z.of_nat a + Z.of_nat n) ids /\
  List.length ids = n.
Proof.
  revert a. induction n as [| n IH]; intros a; cbn; [repeat constructor |].
  destruct (IH (S a)) as (H1 & H2 & H3).
  split; [| split; [| now rewrite H3]].
  - constructor; [exact H1 |]. eapply Forall_impl; [| exact H2]. cbn. intros. lia.
  - constructor; [lia |]. eapply Forall_impl; [| exact H2]. cbn. intros. lia.
Qed.

Lemma assignIds_spec (s : Z) (r : Request) :
  let '(ids, next) := assignIds s r in
  StronglySorted Z.lt ids /\ Forall (fun x => s <= x < next) ids /\
  next = s + Z.of_nat (List.length ids).
Proof.
  destruct r as [| n]; cbn.
  - repeat constructor; lia.
  - destruct (batch_ids s n 0) as (H1 & H2 & H3). cbn in *.
    rewrite H3. split; [exact H1 | split; [| reflexivity]].
    eapply Forall_impl; [| exact H2]. cbn. intros. lia.
Qed.

(** The ids the client puts on its requests never repeat: over any
    sequence of single and batched calls from counter [s], the ids are
    strictly increasing (hence distinct), lie in [[s, next)], and the
    counter advances by exactly the number of ids sent. *)
Theorem request_ids_distinct (s : Z) (rs : list Request) :
  let '(ids, next) := issue s rs in
  StronglySorted Z.lt ids /\ NoDup ids /\ Forall (fun x => s <= x < next) ids /\
  next = s + Z.of_nat (List.length ids).
Proof.
  enough (H : let '(ids, next) := issue s rs in
              StronglySorted Z.lt ids /\ Forall (fun x => s <= x < next) ids /\
              next = s + Z.of_nat (List.length ids)).
  { destruct (issue s rs) as [ids next]. destruct H as (H1 & H2 & H3).
    repeat split; auto.
    clear -H1. induction H1; constructor; auto.
    intros Hin. rewrite Forall_forall in H. specialize (H a Hin). lia. }
  revert s. induction rs as [| r rs IH]; intros s; cbn; [repeat constructor; lia |].
  pose proof (assignIds_spec s r) as Ha.
  destruct (assignIds s r) as [ids1 n1].
  specialize (IH n1). destruct (issue n1 rs) as [ids2 last].
  destruct Ha as (A1 & A2 & A3). destruct IH as (B1 & B2 & B3).
  split; [| split].
  - apply (StronglySorted_app_lt _ _ n1); auto.
    + eapply Forall_impl; [| exact A2]. cbn. intros. lia.
    + eapply Forall_impl; [| exact B2]. cbn. intros. lia.
  - apply Forall_app. split.
    + eapply Forall_impl; [| exact A2]. cbn. intros. lia.
    + eapply Forall_impl; [| exact B2]. cbn. intros. lia.
  - rewrite length_app. lia.
Qed.

End RequestIdsFacts.

(* ------------------------------------------------------------------ *)
(** ** Milestone notifications over a run *)

Module MilestoneRunFacts.
Import Milestones MilestoneFacts.

Lemma has_app_false (d e : list Z) (h : Z) : has (d ++ e) h = false -> has d h = false.
Proof.
  unfold has. rewrite existsb_app. now intros [? _]%orb_false_iff.
Qed.

Lemma checkMilestones_step (h : Z) (s : MilestoneState) :
  0 <= lastMilestoneCheckHeight s -> 0 <= h ->
  let '(s1, fired) := checkMilestones h s in
  dismissedMilestones s1 = dismissedMilestones s /\
  lastMilestoneCheckHeight s <= lastMilestoneCheckHeight s1 /\
  match fired with
  | Some m => In m MILESTONES /\ has (dismissedMilestones s) (height m) = false /\
              lastMilestoneCheckHeight s < height m <= lastMilestoneCheckHeight s1
  | None => True
  end.
Proof.
  intros H1 H2. unfold checkMilestones.
  destruct (Z.eqb_spec (lastMilestoneCheckHeight s) 0) as [E0 | E0]; [cbn; repeat split; lia |].
  destruct (Z.leb_spec h (lastMilestoneCheckHeight s)); [cbn; repeat split; lia |].
  pose proof (mostRecentNotDismissed_spec (dismissedMilestones s)
                (getMilestonesBetween (lastMilestoneCheckHeight s + 1) h)) as Hm.
  destruct (mostRecentNotDismissed _ _) as [m |]; cbn; [| repeat split; lia].
  destruct Hm as (l1 & l2 & Hp & Hd & _).
  assert (Hin : In m (getMilestonesBetween (lastMilestoneCheckHeight s + 1) h))
    by (rewrite Hp; apply in_or_app; right; now left).
  apply getMilestonesBetween_spec in Hin. repeat split; try tauto; lia.
Qed.

(** Over any run of polls at non-negative heights and dismissals, from a
    non-negative checkpoint, the surfaced milestones are milestones of the
    table, with strictly increasing heights (so none is surfaced twice),
    all above the starting checkpoint, and none of them was already
    dismissed at the start. *)
Theorem run_fired_increasing (evs : list Event) (s : MilestoneState) :
  0 <= lastMilestoneCheckHeight s ->
  (forall h, In (Poll h) evs -> 0 <= h) ->
  let out := snd (run evs s) in
  StronglySorted (fun a b => height a < height b) out /\
  Forall (fun m => In m MILESTONES /\ lastMilestoneCheckHeight s < height m /\
                   has (dismissedMilestones s) (height m) = false) out.
Proof.
  revert s. induction evs as [| [h |] evs IH]; intros s Hs Hpolls; cbn.
  - split; constructor.
  - assert (Hh : 0 <= h) by (apply Hpolls; now left).
    pose proof (checkMilestones_step h s Hs Hh) as Hstep.
    destruct (checkMilestones h s) as [s1 fired].
    destruct Hstep as (Hd & Hl & Hf).
    assert (Hs1 : 0 <= lastMilestoneCheckHeight s1) by lia.
    specialize (IH s1 Hs1 (fun h' Hh' => Hpolls h' (or_intror Hh'))).
    destruct (run evs s1) as [s2 out]. cbn in IH |- *. destruct IH as (Hsort & Hall).
    assert (Hall' : Forall (fun m => In m MILESTONES /\ lastMilestoneCheckHeight s < height m /\
                                     has (dismissedMilestones s) (height m) = false) out).
    { eapply Forall_impl; [| exact Hall]. cbn. intros m (? & ? & ?). rewrite <- Hd.
      repeat split; auto; lia. }
    destruct fired as [m |]; [| now split].
    destruct Hf as (Hin & Hdm & Hlo & Hhi).
    split; [constructor; [exact Hsort |] | constructor; [repeat split; auto; lia | exact Hall']].
    eapply Forall_impl; [| exact Hall]. cbn. intros m' (_ & ? & _). lia.
  - assert (Hs' : 0 <= lastMilestoneCheckHeight (dismissMilestone s))
      by (unfold dismissMilestone; now destruct (currentMilestoneNotification s)).
    destruct (IH (dismissMilestone s) Hs' (fun h' Hh' => Hpolls h' (or_intror Hh'))) as (Hsort & Hall).
    split; [exact Hsort |].
    eapply Forall_impl; [| exact Hall]. cbn. intros m (? & ? & Hd).
    unfold dismissMilestone in *.
    destruct (currentMilestoneNotification s); cbn in *; [| auto].
    repeat split; auto. eapply has_app_false. exact Hd.
Qed.

Definition fourthHalvingM : Milestone := mkMilestone 840000 "Fourth Halving"%string.

Lemma run_fired_increasing_witness :
  snd (run [Poll 100; Poll 500000; Dismiss; Poll 900000] initialMilestoneState) =
    [segwit; fourthHalvingM] /\
  StronglySorted (fun a b => height a < height b)
    (snd (run [Poll 100; Poll 500000; Dismiss; Poll 900000] initialMilestoneState)).
Proof.
  split; [reflexivity |].
  apply (run_fired_increasing _ initialMilestoneState); [cbn; lia |].
  intros h Hh. cbn in Hh.
  repeat destruct Hh as [Hh | Hh]; try discriminate; try contradiction;
    injection Hh as <-; lia.
Defined.

End MilestoneRunFacts.

(* ------------------------------------------------------------------ *)
(** ** Session ledger: closing, totals and reload *)

Module SessionLedgerFacts.
Import SessionHistory SessionHistoryMore.

Lemma addBlocks_fold_ge (l : list SyncSession) (t : Z) : t <= fold_left addBlocks l t.
Proof.
  revert t. induction l as [| x l IH]; intros t; cbn; [lia |].
  specialize (IH (addBlocks t x)). unfold addBlocks in *.
  destruct (endBlocks x); lia.
Qed.

Lemma getLastSession_snoc (w : World) (l : list SyncSession) (x : SyncSession) :
  sessions (mem w) = l ++ [x] -> getLastSession w = Some x.
Proof.
  unfold getLastSession. intros ->. destruct (l ++ [x]) eqn:E.
  - now apply app_eq_nil in E as [_ ?].
  - rewrite <- E, length_app. cbn. rewrite nth_error_app2 by lia.
    now replace (List.length l + 1 - 1 - List.length l)%nat with 0%nat by lia.
Qed.

(** [endSession] on an active session [cs]: the closed session becomes
    [getLastSession()], [getTotalBlocksValidated()] grows by
    [max(0, endBlocks - startBlocks)], [isResume()] becomes true and no
    session is active any more. *)
Theorem endSession_closes (now eb : Z) (w : World) (cs : SyncSession) :
  currentSession (mem w) = Some cs ->
  let w' := endSession now eb w in
  getLastSession w' = Some (mkSyncSession (id cs) (startTime cs) (Some now) (startBlocks cs)
                                          (Some eb) (networkHeight cs)) /\
  getTotalBlocksValidated w' = getTotalBlocksValidated w + Z.max 0 (eb - startBlocks cs) /\
  isResume w' = true /\
  currentSession (mem w') = None.
Proof.
  intros Hc. cbn zeta. unfold endSession. rewrite Hc.
  split; [apply (getLastSession_snoc _ (sessions (mem w))); reflexivity |].
  split; [unfold getTotalBlocksValidated; cbn; now rewrite fold_left_app |].
  split; [| reflexivity].
  unfold isResume. cbn. rewrite length_app. cbn.
  rewrite (proj2 (Z.ltb_lt _ _)) by lia. reflexivity.
Qed.

Lemma endSession_closes_witness :
  let w := startSession 1000 500 800000 freshWorld in
  currentSession (mem w) = Some (mkSyncSession 1000 1000 None 500 None 800000) /\
  getTotalBlocksValidated (endSession 9000 700 w) = getTotalBlocksValidated w + 200.
Proof.
  cbn zeta. split; [reflexivity |].
  destruct (endSession_closes 9000 700 (startSession 1000 500 800000 freshWorld)
              (mkSyncSession 1000 1000 None 500 None 800000) eq_refl) as (_ & H & _).
  rewrite H. reflexivity.
Defined.

Lemma applyOp_append (op : LedgerOp) (w : World) :
  exists suffix, sessions (mem (applyOp op w)) = sessions (mem w) ++ suffix /\
    Forall (fun s => endTime s <> None /\ endBlocks s <> None) suffix.
Proof.
  destruct op as [now cb nh | cb p | now eb | now tb]; cbn.
  - exists []. rewrite app_nil_r. unfold startSession.
    destruct (currentSession (mem w)); auto.
  - exists []. rewrite app_nil_r. auto.
  - unfold endSession. destruct (currentSession (mem w)).
    + eexists; split; [reflexivity |]. constructor; [cbn; split; discriminate | constructor].
    + exists []. rewrite app_nil_r. auto.
  - unfold markComplete, endSession. destruct (currentSession (mem w)).
    + eexists; split; [reflexivity |]. constructor; [cbn; split; discriminate | constructor].
    + exists []. rewrite app_nil_r. auto.
Qed.

(** The session list is append-only: any sequence of ledger operations
    only appends sessions, every appended session is closed (both
    [endTime] and [endBlocks] set), and [getTotalBlocksValidated()] never
    decreases. *)
Theorem ledger_append_only (ops : list LedgerOp) (w : World) :
  exists suffix, sessions (mem (applyOps ops w)) = sessions (mem w) ++ suffix /\
    Forall (fun s => endTime s <> None /\ endBlocks s <> None) suffix /\
    getTotalBlocksValidated w <= getTotalBlocksValidated (applyOps ops w).
Proof.
  enough (H : exists suffix, sessions (mem (applyOps ops w)) = sessions (mem w) ++ suffix /\
    Forall (fun s => endTime s <> None /\ endBlocks s <> None) suffix).
  { destruct H as (suffix & Hs & Hf). exists suffix. repeat split; auto.
    unfold getTotalBlocksValidated. rewrite Hs, fold_left_app. apply addBlocks_fold_ge. }
  unfold applyOps. revert w. induction ops as [| op ops IH]; intros w; cbn.
  - exists []. rewrite app_nil_r. auto.
  - destruct (applyOp_append op w) as (s1 & H1 & F1).
    destruct (IH (applyOp op w)) as (s2 & H2 & F2).
    exists (s1 ++ s2). rewrite H2, H1, app_assoc. split; [reflexivity |].
    now apply Forall_app.
Qed.







End SessionLedgerFacts.

(* ------------------------------------------------------------------ *)
(** ** Connection store: health check, batch update, invariants *)

Module ConnectionMoreFacts.
Import Connection ExternalData ConnectionMore.

Ltac split_ifs :=
  repeat match goal with
         | |- context [if ?c then _ else _] => let E := fresh "E" in destruct c eqn:E
         end.

Lemma statsChanged_same (st : ObserverStats) : statsChanged (Some st) (Some st) = false.
Proof. unfold statsChanged. now rewrite !Z.eqb_refl. Qed.

Lemma orZ_keeps_nonzero (a b : Z) : b <> 0 -> orZ a b <> 0.
Proof. unfold orZ. destruct (Z.eqb_spec a 0); auto. Qed.

(** [healthCheck()]: while a check is connecting it changes nothing and
    schedules nothing; otherwise a failed stats call sets the status to
    error with the message as [lastError], clears the stats, keeps the
    external figures and schedules a reconnect; a successful call leaves
    the store connected, with stats that [statsChanged] reports equal to
    the received ones (either the received snapshot itself, or the
    previous one kept when the two differ only in fields [statsChanged]
    does not compare), no reconnect, and a non-zero block height never
    reset to 0. *)
Theorem healthCheck_outcomes (now : Z) (res : StatsResult) (f : Z * Z) (s : ConnectionState) :
  let '(s', reconnect) := healthCheck now res f s in
  if isConnecting (status s) then s' = s /\ reconnect = false
  else match res with
       | StatsErr msg =>
           status s' = error /\ lastError s' = Some msg /\ stats s' = None /\
           reconnect = true /\ blockHeight s' = blockHeight s /\
           networkHashrate s' = networkHashrate s
       | StatsOk st =>
           status s' = connected /\ statsChanged (stats s') (Some st) = false /\
           (stats s' = Some st \/
            (stats s' = stats s /\ statsChanged (stats s) (Some st) = false)) /\
           reconnect = false /\ (blockHeight s <> 0 -> blockHeight s' <> 0)
       end.
Proof.
  unfold healthCheck.
  destruct s as [status0 cfg err chk sts bh lf hr].
  destruct status0; cbn; [| now split | |]; destruct res as [st | msg]; cbn;
    try (repeat split; reflexivity); destruct f as [fh fr];
    split_ifs; cbn in *; repeat split; try apply statsChanged_same;
    try (apply orZ_keeps_nonzero; assumption);
    try (rewrite !orb_false_iff in E0; tauto);
    try discriminate; auto;
    try (left; reflexivity);
    try (right; split; [reflexivity | rewrite !orb_false_iff in E0; tauto]).
Qed.

(** [updateStatsFromBatch(stats)]: afterwards the store is connected and
    holds stats equal (for [statsChanged]) to the received ones; the
    configuration and the external figures (block height, its fetch time,
    hashrate) are never touched. *)
Theorem updateStatsFromBatch_connected (now : Z) (st : ObserverStats) (s : ConnectionState) :
  let s' := updateStatsFromBatch now st s in
  status s' = connected /\ statsChanged (stats s') (Some st) = false /\
  config s' = config s /\ blockHeight s' = blockHeight s /\
  lastBlockHeightFetch s' = lastBlockHeightFetch s /\ networkHashrate s' = networkHashrate s.
Proof.
  cbn zeta. unfold updateStatsFromBatch.
  destruct (statsChanged (stats s) (Some st)) eqn:Ec; cbn;
    [repeat split; apply statsChanged_same |].
  destruct (status s) eqn:Es; cbn; repeat split; auto; now rewrite !Z.eqb_refl.
Qed.

(** The connected-and-clean invariant: a connected store carries no error. *)
Definition connectedClean (s : ConnectionState) : Prop :=
  status s = connected -> lastError s = None.

Lemma applyConnOp_invariants (op : ConnOp) (st : Store) :
  (connectedClean (connectionState st) -> connectedClean (connectionState (applyConnOp op st))) /\
  (blockHeight (connectionState st) <> 0 -> blockHeight (connectionState (applyConnOp op st)) <> 0).
Proof.
  destruct st as [[status0 cfg err chk sts bh lf hr] timer].
  unfold connectedClean.
  destruct op as [now res [fh fr] | now o | now [fh fr] | ]; cbn.
  - unfold healthCheck. destruct status0; cbn; destruct res; cbn; split_ifs; cbn;
      split; intros; auto; try discriminate; try (apply orZ_keeps_nonzero; assumption).
  - unfold updateStatsFromBatch. split_ifs; cbn; split; intros; auto.
  - unfold fetchExternalData. split_ifs; cbn; split; intros; auto;
      apply orZ_keeps_nonzero; assumption.
  - split; intros; auto. discriminate.
Qed.

(** Over any sequence of health checks, batch updates, external fetches
    and disconnects: a connected store never carries an error message
    (from any store where that already holds, e.g. the initial one), and
    once a block height has been obtained it is never reset to 0. *)
Theorem connection_invariants (ops : list ConnOp) (st : Store) :
  (connectedClean (connectionState st) ->
   connectedClean (connectionState (applyConnOps ops st))) /\
  (blockHeight (connectionState st) <> 0 ->
   blockHeight (connectionState (applyConnOps ops st)) <> 0).
Proof.
  unfold applyConnOps. revert st. induction ops as [| op ops IH]; intros st; cbn; [auto |].
  destruct (applyConnOp_invariants op st) as [H1 H2].
  destruct (IH (applyConnOp op st)) as [I1 I2]. auto.
Qed.

Definition initialStore : Store := mkStore (initialState DEFAULT_CONFIG) false.

Definition sampleOps : list ConnOp :=
  [CHealth 1000 (StatsErr "down"%string) (0, 0);
   CExternal 2000 (800000, 5);
   CHealth 3000 (StatsOk (mkObserverStats "full"%string 10 8 0
                   (mkMessagesReceived 0 0 0 0 0 0 0 0 0 0 0 0 0))) (800001, 6);
   CDisconnect].

Lemma connection_invariants_witness :
  connectedClean (connectionState (applyConnOps sampleOps initialStore)) /\
  blockHeight (connectionState (applyConnOps sampleOps (mkStore
    (snd (fetchExternalData 0 (800000, 5) (initialState DEFAULT_CONFIG))) false))) <> 0.
Proof.
  split.
  - apply (proj1 (connection_invariants sampleOps initialStore)).
    unfold connectedClean. cbn. discriminate.
  - apply (proj2 (connection_invariants sampleOps _)). cbn. discriminate.
Defined.

End ConnectionMoreFacts.

(* ------------------------------------------------------------------ *)
(** ** Node mode store: updates and detection *)

Module NodeModeMoreFacts.
Import NodeModeStore NodeModeMore.

Lemma nodeModeEqb_true (a b : NodeMode) : nodeModeEqb a b = true -> a = b.
Proof. destruct a, b; cbn; congruence. Qed.

(** [updateFromStats(stats, blockchainInfo)]: whichever branch of the
    mode-changed test runs, afterwards the stored mode is the mode
    [detectMode] gives for the new stats and the stored blockchain info,
    the stats are the new ones, the blockchain info is the passed one or,
    when none is passed, the cached one (never dropped), and [loading]
    and [lastError] are untouched. *)
Theorem updateFromStats_consistent (st : ObserverStats) (info : option BlockchainInfo)
  (s : NodeModeState) :
  let s' := updateFromStats st info s in
  nmode s' = detectMode (Some st) (blockchainInfo s') /\
  observerStats s' = Some st /\
  blockchainInfo s' = coalesce info (blockchainInfo s) /\
  loading s' = loading s /\ nlastError s' = nlastError s.
Proof.
  cbn zeta. unfold updateFromStats.
  destruct (nodeModeEqb _ (nmode s)) eqn:E;
    cbn [negb nmode observerStats blockchainInfo loading nlastError]; [| repeat split].
  apply nodeModeEqb_true in E. split; [exact (eq_sym E) | repeat split].
Qed.

(** [detect(config)]: the returned mode is the stored mode and loading
    ends false. If [getObserverStats] fails, the mode is unknown, the
    error message is stored and the cached stats and blockchain info are
    kept. Otherwise [getBlockchainInfo] is called exactly when the stats
    report mode "full", its failure yields validate-archival with no
    blockchain info, and the stored blockchain info is what it returned
    (none for other modes). *)
Theorem detect_spec (sr : Settled ObserverStats) (ir : Settled BlockchainInfo)
  (s : NodeModeState) :
  let '(m, s', called) := detect sr ir s in
  nmode s' = m /\ loading s' = false /\
  match sr with
  | Failed msg =>
      m = unknown /\ nlastError s' = Some msg /\ observerStats s' = observerStats s /\
      blockchainInfo s' = blockchainInfo s /\ called = false
  | Ok st =>
      nlastError s' = None /\ observerStats s' = Some st /\
      m = detectMode (Some st) (blockchainInfo s') /\
      called = String.eqb (mode st) "full" /\
      blockchainInfo s' = (if called then match ir with Ok i => Some i | Failed _ => None end
                           else None) /\
      (called = true -> (exists msg, ir = Failed msg) -> m = validate_archival)
  end.
Proof.
  destruct sr as [st | msg]; cbn; [| repeat split].
  repeat split.
  intros Hf [msg ->]. rewrite Hf. cbn.
  apply String.eqb_eq in Hf. rewrite Hf. reflexivity.
Qed.

(** [isIBD] right after [detect(config)]: when the stats call succeeds it
    is true exactly when the node reports mode "full" and
    [getBlockchainInfo] returns info flagged as in initial block download;
    when the stats call fails it reflects the blockchain info cached from
    before (the failure branch keeps it). *)
Theorem detect_isIBD (sr : Settled ObserverStats) (ir : Settled BlockchainInfo)
  (s : NodeModeState) :
  let '(_, s', _) := detect sr ir s in
  isIBD s' = match sr with
             | Failed _ => match blockchainInfo s with Some i => initialblockdownload i | None => false end
             | Ok st => String.eqb (mode st) "full" &&
                        match ir with Ok i => initialblockdownload i | Failed _ => false end
             end.
Proof.
  destruct sr as [st | msg]; cbn; [| reflexivity].
  unfold isIBD. cbn.
  destruct (String.eqb_spec (mode st) "full") as [Hf | Hf].
  - rewrite Hf. cbn. destruct ir as [i |]; cbn; [| reflexivity].
    destruct (pruned i); reflexivity.
  - cbn. destruct (String.eqb (mode st) "observer"); reflexivity.
Qed.

End NodeModeMoreFacts.

(* ------------------------------------------------------------------ *)
(** ** Sync page: completion is recorded at most once *)

Module SyncEffectFacts.
Import SessionHistory SyncPage SyncProgress SyncEffect SyncEffectLemmas.

(** Across any sequence of runs of the page's [$effect],
    [sessionHistory.markComplete] is called at most once; never when
    [wasNotSynced] starts false or a completion record already exists;
    and after a call the completion record is set and [wasNotSynced]
    stays false. *)
Theorem markComplete_at_most_once (ins : list EffectInput) (ps : PageState) (w : World) :
  let '(ps', w', n) := runEffects ins ps w in
  (n <= 1)%nat /\
  (wasNotSynced ps = false -> n = 0%nat) /\
  (completion (mem w) <> None -> n = 0%nat) /\
  (n = 1%nat -> wasNotSynced ps' = false /\ completion (mem w') <> None).
Proof.
  revert ps w. induction ins as [| i rest IH]; intros ps w; cbn; [repeat split; auto; lia |].
  pose proof (syncEffect_step (e_now i) (e_chainInfo i) (e_loading i) (e_networkHeight i) ps w)
    as Hs.
  destruct (syncEffect _ _ _ _ ps w) as [[ps1 w1] c].
  pose proof (runEffects_frame rest ps1 w1) as Hfr.
  specialize (IH ps1 w1). destruct (runEffects rest ps1 w1) as [[ps2 w2] n].
  destruct Hs as (H1 & H2 & H3). destruct IH as (I1 & I2 & I3 & I4). destruct Hfr as [F1 F2].
  destruct c.
  - destruct (H3 eq_refl) as (Hw & Hc & Hw1 & Hc1).
    specialize (I2 Hw1). subst n.
    repeat split; auto; intros H; congruence.
  - split; [exact I1 |]. split; [| split; [intros H; apply I3, H2, H | exact I4]].
    intros H. apply I2. destruct (wasNotSynced ps1) eqn:E; auto.
    specialize (H1 eq_refl). congruence.
Qed.

Definition syncedInfo (h : Z) : BlockchainInfo := mkBlockchainInfo h h false false.
Definition syncingInfo (h : Z) : BlockchainInfo := mkBlockchainInfo h 800000 true false.

Example effect_runs_complete_once :
  let ins := [mkEffectInput 1 (Some (syncingInfo 500)) false 800000;
              mkEffectInput 2 (Some (syncedInfo 800000)) false 800000;
              mkEffectInput 3 (Some (syncedInfo 800001)) false 800001] in
  snd (runEffects ins (mkPageState vSyncing false true false) freshWorld) = 1%nat.
Proof. reflexivity. Qed.

End SyncEffectFacts.
